(** * react-overreact: the hover list, variant by variant

    The repository holds one small user interface, a column of 500
    [div]s of which the one under the pointer is tinted, written several
    times over:

    - [Inline]: the first React version, every handler written in the loop
      of [App];
    - [Extracted]: the [div] pulled out into the [Element] component, the
      handlers [handleMouseEnter] and [handleMouseLeave] passed as props,
      the leave guard written with [==];
    - [Memoized]: [Element] wrapped in [React.memo] with a hand-written
      comparison of props, the leave guard written with [===];
    - [Vanilla]: no React and no shared state, each DOM element tints and
      clears itself;
    - [StableCallbacks]: the last listing of the article, the memoized
      version with its handlers wrapped in [useCallback].

    The development embeds each version as Rocq functions, follows the
    text of the source, and proves the properties of the hover state. *)

From Stdlib Require Import Ascii.
From stdpp Require Import base strings list pretty.

Open Scope string_scope.

(** ** JavaScript values and the two equality operators

    The identifiers and the hover state are strings by their TypeScript
    types.  The operators [==] and [===] are defined on every value, and
    they differ only when the two operands are of different types; the
    embedding keeps, besides the strings, the two types whose comparison
    needs no numeric conversion, which is where the two operators part. *)

Inductive JsValue :=
  | JsUndefined
  | JsNull
  | JsString (s : string).

(** [x === y] *)
Definition IsStrictlyEqual (x y : JsValue) : bool :=
  match x, y with
  | JsUndefined, JsUndefined => true
  | JsNull, JsNull => true
  | JsString a, JsString b => String.eqb a b
  | _, _ => false
  end.

(** [x == y]: operands of one type are compared strictly, [null] and
    [undefined] are equal to each other, and a string is equal to neither. *)
Definition IsLooselyEqual (x y : JsValue) : bool :=
  match x, y with
  | JsUndefined, JsUndefined
  | JsNull, JsNull
  | JsString _, JsString _ => IsStrictlyEqual x y
  | JsNull, JsUndefined
  | JsUndefined, JsNull => true
  | _, _ => false
  end.

Declare Scope js_scope.
Delimit Scope js_scope with js.
Notation "a === b" := (IsStrictlyEqual (JsString a) (JsString b))
  (at level 70, no associativity) : js_scope.
Notation "a == b" := (IsLooselyEqual (JsString a) (JsString b))
  (at level 70, no associativity) : js_scope.
Open Scope js_scope.

(** [String(i)] for the loop index [i], a non-negative integer: its
    decimal numeral. *)
Definition ToString (i : nat) : string := pretty i.

(** The number of elements every version builds. *)
Definition item_count : nat := 500.

(** The pointer events the host delivers, one at a time, each to the
    element it concerns (named by its position in the list). *)
Inductive Event :=
  | mouseenter (i : nat)
  | mouseleave (i : nat).

(** ** What React shows and how it runs a handler *)
Module React.

(** A handler returns nothing; what it does is call the state setter, at
    most once.  Its effect is the argument of that call, if any. *)
Definition Update := option string.

Record CSSProperties := {
  marginBottom : nat;
  backgroundColor : string
}.

(** A rendered [<div>]; the handlers are closures made by the render. *)
Record Div := {
  style : CSSProperties;
  onMouseEnter : () → Update;
  onMouseLeave : () → Update;
  children : string
}.

(** [useState("")] *)
Definition initial : string := "".

(** The handler of the element the event is for, run. *)
Definition fire (tree : list Div) (e : Event) : Update :=
  match e with
  | mouseenter i => tree !! i ≫= λ d, onMouseEnter d ()
  | mouseleave i => tree !! i ≫= λ d, onMouseLeave d ()
  end.

(** The state the next render reads. *)
Definition setState (s : string) (u : Update) : string := default s u.

(** One event against a component that is rendered afresh from its state
    before the next event is delivered. *)
Definition dispatch (App : string → list Div) (s : string) (e : Event)
  : string :=
  setState s (fire (App s) e).

Definition run (App : string → list Div) (s : string) (es : list Event)
  : string :=
  foldl (dispatch App) s es.

(** The flag the rendering layer consumes: is element [i] tinted? *)
Definition highlighted (tree : list Div) (i : nat) : bool :=
  match tree !! i with
  | Some d => String.eqb (backgroundColor (style d)) "#eee"
  | None => false
  end.

End React.

(** ** The first version: everything in the loop of [App] *)
Module Inline.
Import React.

(** [() => { setHoveredElementId(elementId); }] *)
Definition onMouseEnter (elementId : string) : Update :=
  Some elementId.

(** [() => { if (elementId == hoveredElementId) setHoveredElementId(""); }] *)
Definition onMouseLeave (hoveredElementId elementId : string) : Update :=
  if elementId == hoveredElementId then Some "" else None.

(** The body of the loop, for index [i]. *)
Definition div (hoveredElementId : string) (i : nat) : Div :=
  let elementId := ToString i in
  let isHovered := hoveredElementId === elementId in
  {| style := {| marginBottom := 8;
                 backgroundColor := if isHovered then "#eee" else "" |};
     React.onMouseEnter := λ _, onMouseEnter elementId;
     React.onMouseLeave := λ _, onMouseLeave hoveredElementId elementId;
     children := "div" |}.

Definition App (hoveredElementId : string) : list Div :=
  div hoveredElementId <$> seq 0 item_count.

(** The two operations of the hover state, and the derived flag. *)
Definition onEnter (id : string) (s : string) : string :=
  setState s (onMouseEnter id).
Definition onLeave (id : string) (s : string) : string :=
  setState s (onMouseLeave s id).
Definition highlighted (s : string) (i : nat) : bool :=
  React.highlighted (App s) i.

End Inline.

(** ** The second version: the [Element] component *)
Module Extracted.
Import React.

Record ElementProps := {
  id : string;
  hoveredElementId : string;
  onMouseEnter : string → Update;
  onMouseLeave : string → Update
}.

Definition Element (props : ElementProps) : Div :=
  let isHovered := hoveredElementId props === id props in
  {| style := {| marginBottom := 8;
                 backgroundColor := if isHovered then "#eee" else "" |};
     React.onMouseEnter := λ _, onMouseEnter props (id props);
     React.onMouseLeave := λ _, onMouseLeave props (id props);
     children := "div" |}.

(** [(id) => { setHoveredElementId(id); }] *)
Definition handleMouseEnter (id : string) : Update :=
  Some id.

(** [(id) => { if (id == hoveredElementId) setHoveredElementId(""); }],
    a closure over the [hoveredElementId] of the render that made it. *)
Definition handleMouseLeave (hoveredElementId : string) (id : string)
  : Update :=
  if id == hoveredElementId then Some "" else None.

Definition App (hoveredElementId : string) : list Div :=
  (λ i, Element {| id := ToString i;
                   hoveredElementId := hoveredElementId;
                   onMouseEnter := handleMouseEnter;
                   onMouseLeave := handleMouseLeave hoveredElementId |})
    <$> seq 0 item_count.

Definition onEnter (id : string) (s : string) : string :=
  setState s (handleMouseEnter id).
Definition onLeave (id : string) (s : string) : string :=
  setState s (handleMouseLeave s id).
Definition highlighted (s : string) (i : nat) : bool :=
  React.highlighted (App s) i.

End Extracted.

(** ** The third version: [React.memo] around [Element]

    [React.memo] keeps what a child rendered last and, when the parent
    renders again, asks the comparison whether the child may be skipped.
    The comparison looks at the handlers too, and lodash compares functions
    by identity, so here a closure carries the stamp of its allocation. *)
Module Memoized.
Import React.

Record Callback := {
  ref : nat;
  call : string → Update
}.

Record ElementProps := {
  id : string;
  hoveredElementId : string;
  onMouseEnter : Callback;
  onMouseLeave : Callback
}.

Definition Element (props : ElementProps) : Div :=
  let isHovered := hoveredElementId props === id props in
  {| style := {| marginBottom := 8;
                 backgroundColor := if isHovered then "#eee" else "" |};
     React.onMouseEnter := λ _, call (onMouseEnter props) (id props);
     React.onMouseLeave := λ _, call (onMouseLeave props) (id props);
     children := "div" |}.

(** [_.isEqual(oldProps, newProps)] on the props without
    [hoveredElementId]: the strings by value, the functions by identity. *)
Definition isEqual (oldProps newProps : ElementProps) : bool :=
  String.eqb (id oldProps) (id newProps)
  && Nat.eqb (ref (onMouseEnter oldProps)) (ref (onMouseEnter newProps))
  && Nat.eqb (ref (onMouseLeave oldProps)) (ref (onMouseLeave newProps)).

(** The second argument of [React.memo]: [true] lets React skip the
    child. *)
Definition propsAreEqual (prevProps nextProps : ElementProps) : bool :=
  let oldHoveredElementId := hoveredElementId prevProps in
  let newHoveredElementId := hoveredElementId nextProps in
  if oldHoveredElementId === id nextProps then false
  else if newHoveredElementId === id nextProps then false
  else isEqual prevProps nextProps.

(** The two closures of the render numbered [render]. *)
Definition handleMouseEnter (render : nat) : Callback :=
  {| ref := 2 * render;
     call := λ id, Some id |}.

Definition handleMouseLeave (render : nat) (hoveredElementId : string)
  : Callback :=
  {| ref := 2 * render + 1;
     call := λ id, if id === hoveredElementId then Some "" else None |}.

(** The props [App] hands to its 500 children. *)
Definition App (render : nat) (hoveredElementId : string)
  : list ElementProps :=
  (λ i, {| id := ToString i;
           hoveredElementId := hoveredElementId;
           onMouseEnter := handleMouseEnter render;
           onMouseLeave := handleMouseLeave render hoveredElementId |})
    <$> seq 0 item_count.

(** A memoized child: the props of its last render and what it showed. *)
Record Memo := {
  memoizedProps : ElementProps;
  output : Div
}.

Definition render_child (props : ElementProps) : Memo :=
  {| memoizedProps := props; output := Element props |}.

Definition MemoedElement (prev : Memo) (nextProps : ElementProps) : Memo :=
  if propsAreEqual (memoizedProps prev) nextProps then prev
  else render_child nextProps.

(** The mounted component: the state, the number of renders of [App] so
    far, and the children as they are on the screen. *)
Record Root := {
  state : string;
  renders : nat;
  shown : list Memo
}.

Definition mount : Root :=
  {| state := initial;
     renders := 1;
     shown := render_child <$> App 0 initial |}.

(** [App] runs again when a handler has set a different state. *)
Definition dispatch (r : Root) (e : Event) : Root :=
  match fire (output <$> shown r) e with
  | None => r
  | Some s =>
      if String.eqb s (state r) then r
      else {| state := s;
              renders := S (renders r);
              shown := zip_with MemoedElement (shown r)
                                (App (renders r) s) |}
  end.

Definition run (r : Root) (es : list Event) : Root :=
  foldl dispatch r es.

(** The operations on the hover state, as the closures of the current
    render perform them. *)
Definition onEnter (render : nat) (id : string) (s : string) : string :=
  setState s (call (handleMouseEnter render) id).
Definition onLeave (render : nat) (id : string) (s : string) : string :=
  setState s (call (handleMouseLeave render s) id).
Definition highlighted (r : Root) (i : nat) : bool :=
  React.highlighted (output <$> shown r) i.

(** What is on the screen is what [App] renders from the current state:
    no child shows the output of an older render. *)
Definition up_to_date (r : Root) : Prop :=
  ∃ n, n < renders r ∧ shown r = render_child <$> App n (state r).

End Memoized.

(** ** The version without React: each element keeps its own colour *)
Module Vanilla.

Record HTMLDivElement := {
  marginBottom : string;
  innerText : string;
  backgroundColor : string
}.

(** [document.createElement('div')] followed by the two assignments of
    the loop; a new element has no background colour. *)
Definition element : HTMLDivElement :=
  {| marginBottom := "8px"; innerText := "div"; backgroundColor := "" |}.

(** [element.style.backgroundColor = c].  The field keeps the colour as
    the listener writes it; the page reports the same colour in its own
    notation. *)
Definition set_backgroundColor (c : string) (e : HTMLDivElement)
  : HTMLDivElement :=
  {| marginBottom := marginBottom e;
     innerText := innerText e;
     backgroundColor := c |}.

(** The children of [root] once the loop has run. *)
Definition root : list HTMLDivElement := replicate item_count element.

(** The listeners: each assigns the colour of its own element.  An event
    reaches a listener only through an element that exists. *)
Definition dispatch (dom : list HTMLDivElement) (e : Event)
  : list HTMLDivElement :=
  match e with
  | mouseenter i => alter (set_backgroundColor "#eee") i dom
  | mouseleave i => alter (set_backgroundColor "") i dom
  end.

Definition run (dom : list HTMLDivElement) (es : list Event)
  : list HTMLDivElement :=
  foldl dispatch dom es.

Definition onEnter (i : nat) (dom : list HTMLDivElement) :=
  dispatch dom (mouseenter i).
Definition onLeave (i : nat) (dom : list HTMLDivElement) :=
  dispatch dom (mouseleave i).

Definition highlighted (dom : list HTMLDivElement) (i : nat) : bool :=
  match dom !! i with
  | Some e => String.eqb (backgroundColor e) "#eee"
  | None => false
  end.

(** The only colours the listeners assign. *)
Definition two_colours (dom : list HTMLDivElement) : Prop :=
  ∀ i e, dom !! i = Some e →
         backgroundColor e = "" ∨ backgroundColor e = "#eee".

(** The tinted elements are exactly the one the pointer is over. *)
Definition tracks (over : option nat) (dom : list HTMLDivElement) : Prop :=
  length dom = item_count ∧ ∀ i, highlighted dom i = true ↔ over = Some i.

End Vanilla.

(** ** The listing with [useCallback]

    The article that comes with the code ends on one more version, printed
    in full: the memoized version with both handlers wrapped in
    [useCallback(..., [setHoveredElementId])].  [Element], the comparison
    and [MemoedElement] are those of [Memoized]; [App] differs in where its
    handlers come from. *)
Module StableCallbacks.
Import React.

(** [useCallback(callback, deps)] when [deps] never change, as is the case
    of the state setter: the first render stores [callback], and every
    later render returns what is stored. *)
Definition useCallback (stored : option Memoized.Callback)
    (callback : Memoized.Callback) : Memoized.Callback :=
  match stored with
  | Some f => f
  | None => callback
  end.

(** The two handlers of a render of [App], as the hooks return them. *)
Definition handlers (render : nat)
    (stored : option Memoized.Callback * option Memoized.Callback)
    (hoveredElementId : string) : Memoized.Callback * Memoized.Callback :=
  (useCallback (fst stored) (Memoized.handleMouseEnter render),
   useCallback (snd stored)
               (Memoized.handleMouseLeave render hoveredElementId)).

Definition App (render : nat)
    (stored : option Memoized.Callback * option Memoized.Callback)
    (hoveredElementId : string) : list Memoized.ElementProps :=
  let handleMouseEnter := fst (handlers render stored hoveredElementId) in
  let handleMouseLeave := snd (handlers render stored hoveredElementId) in
  (λ i, {| Memoized.id := ToString i;
           Memoized.hoveredElementId := hoveredElementId;
           Memoized.onMouseEnter := handleMouseEnter;
           Memoized.onMouseLeave := handleMouseLeave |})
    <$> seq 0 item_count.

(** What the two hooks hold once a render is over. *)
Definition remember (fs : Memoized.Callback * Memoized.Callback)
  : option Memoized.Callback * option Memoized.Callback :=
  (Some (fst fs), Some (snd fs)).

(** The mounted component; [hooks] is what the two [useCallback] keep. *)
Record Root := {
  state : string;
  renders : nat;
  hooks : option Memoized.Callback * option Memoized.Callback;
  shown : list Memoized.Memo
}.

Definition mount : Root :=
  {| state := initial;
     renders := 1;
     hooks := remember (handlers 0 (None, None) initial);
     shown := Memoized.render_child <$> App 0 (None, None) initial |}.

Definition dispatch (r : Root) (e : Event) : Root :=
  match fire (Memoized.output <$> shown r) e with
  | None => r
  | Some s =>
      if String.eqb s (state r) then r
      else {| state := s;
              renders := S (renders r);
              hooks := remember (handlers (renders r) (hooks r) s);
              shown := zip_with Memoized.MemoedElement (shown r)
                                (App (renders r) (hooks r) s) |}
  end.

Definition run (r : Root) (es : list Event) : Root :=
  foldl dispatch r es.

Definition highlighted (r : Root) (i : nat) : bool :=
  React.highlighted (Memoized.output <$> shown r) i.

(** Every child shows what it rendered from its own last props, holds the
    two handlers of the first render, and agrees with the current state on
    whether it is the hovered one. *)
Definition settled (r : Root) : Prop :=
  hooks r = (Some (Memoized.handleMouseEnter 0),
             Some (Memoized.handleMouseLeave 0 initial))
  ∧ length (shown r) = item_count
  ∧ ∀ i m, shown r !! i = Some m →
      Memoized.output m = Memoized.Element (Memoized.memoizedProps m)
      ∧ Memoized.id (Memoized.memoizedProps m) = ToString i
      ∧ Memoized.onMouseEnter (Memoized.memoizedProps m)
        = Memoized.handleMouseEnter 0
      ∧ Memoized.onMouseLeave (Memoized.memoizedProps m)
        = Memoized.handleMouseLeave 0 initial
      ∧ (Memoized.hoveredElementId (Memoized.memoizedProps m) === ToString i)
        = (state r === ToString i).

End StableCallbacks.

(** ** Calls that can fail

    A call in JavaScript throws a [TypeError] when what is called is not a
    function.  The handlers call the state setter, and the handlers of
    [Element] call whatever their props hold.  This module keeps the
    values the way the run time has them, a function being one value among
    others, so that a call can fail; the components are those of the
    source files, with their calls written as calls. *)
Module Runtime.
Import React.

Inductive Error :=
  | TypeError.

Inductive Completion (A : Type) :=
  | Normal (a : A)
  | Throw (e : Error).
Arguments Normal {A} a.
Arguments Throw {A} e.

(** What a variable or a prop of the components can hold: nothing, a
    string, the setter [useState] returns, or one of the two closures of
    [App], each with the variables it reads.  [strict] tells the guard
    written with [===] from the guard written with [==]. *)
Inductive Value :=
  | Undefined
  | Text (s : string)
  | StateSetter
  | HandleMouseEnter (setHoveredElementId : Value)
  | HandleMouseLeave (strict : bool) (hoveredElementId : string)
                     (setHoveredElementId : Value).

(** [f(argument)]: the body of the function [f] run on [argument], or the
    error of calling what is not a function. *)
Fixpoint Call (f : Value) (argument : string) : Completion Update :=
  match f with
  | StateSetter => Normal (Some argument)
  | HandleMouseEnter setHoveredElementId =>
      Call setHoveredElementId argument
  | HandleMouseLeave strict hoveredElementId setHoveredElementId =>
      if (if strict then argument === hoveredElementId
          else argument == hoveredElementId)
      then Call setHoveredElementId ""
      else Normal None
  | Undefined => Throw TypeError
  | Text _ => Throw TypeError
  end.

(** [useState("")] at a render whose state is [state]: the state and the
    setter. *)
Definition useState (state : string) : string * Value :=
  (state, StateSetter).

Record ElementProps := {
  id : string;
  hoveredElementId : string;
  onMouseEnter : Value;
  onMouseLeave : Value
}.

Record Div := {
  style : CSSProperties;
  div_onMouseEnter : () → Completion Update;
  div_onMouseLeave : () → Completion Update;
  children : string
}.

Definition Element (props : ElementProps) : Div :=
  let isHovered := hoveredElementId props === id props in
  {| style := {| marginBottom := 8;
                 backgroundColor := if isHovered then "#eee" else "" |};
     div_onMouseEnter := λ _, Call (onMouseEnter props) (id props);
     div_onMouseLeave := λ _, Call (onMouseLeave props) (id props);
     children := "div" |}.

(** The two handlers of a render of [App]. *)
Definition handlers (strict : bool) (state : string) : Value * Value :=
  let hoveredElementId := fst (useState state) in
  let setHoveredElementId := snd (useState state) in
  (HandleMouseEnter setHoveredElementId,
   HandleMouseLeave strict hoveredElementId setHoveredElementId).

(** [App] of the two versions of [App.tsx]; in the second the children are
    wrapped in [React.memo], which changes when they run and not what
    they are. *)
Definition App (strict : bool) (state : string) : list Div :=
  let hoveredElementId := fst (useState state) in
  let handleMouseEnter := fst (handlers strict state) in
  let handleMouseLeave := snd (handlers strict state) in
  (λ i, Element {| id := ToString i;
                   hoveredElementId := hoveredElementId;
                   onMouseEnter := handleMouseEnter;
                   onMouseLeave := handleMouseLeave |})
    <$> seq 0 item_count.

(** [App] of the first version, its handlers written in the loop. *)
Definition InlineApp (state : string) : list Div :=
  let hoveredElementId := fst (useState state) in
  let setHoveredElementId := snd (useState state) in
  (λ i,
     let elementId := ToString i in
     let isHovered := hoveredElementId === elementId in
     {| style := {| marginBottom := 8;
                    backgroundColor := if isHovered then "#eee" else "" |};
        div_onMouseEnter := λ _, Call setHoveredElementId elementId;
        div_onMouseLeave := λ _,
          if elementId == hoveredElementId
          then Call setHoveredElementId ""
          else Normal None;
        children := "div" |})
    <$> seq 0 item_count.

(** An event runs the handler of its element, if there is one. *)
Definition fire (tree : list Div) (e : Event) : Completion Update :=
  match e with
  | mouseenter i =>
      match tree !! i with
      | Some d => div_onMouseEnter d ()
      | None => Normal None
      end
  | mouseleave i =>
      match tree !! i with
      | Some d => div_onMouseLeave d ()
      | None => Normal None
      end
  end.

Definition dispatch (App : string → list Div) (s : string) (e : Event)
  : Completion string :=
  match fire (App s) e with
  | Normal u => Normal (setState s u)
  | Throw error => Throw error
  end.

(** The events in turn; an error ends the run. *)
Fixpoint run (App : string → list Div) (s : string) (es : list Event)
  : Completion string :=
  match es with
  | [] => Normal s
  | e :: es' =>
      match dispatch App s e with
      | Normal s' => run App s' es'
      | Throw error => Throw error
      end
  end.

End Runtime.

(** ** Vocabulary of the properties *)

(** A decimal numeral: one digit or more, nothing else. *)
Definition digit (c : ascii) : bool :=
  Nat.leb 48 (nat_of_ascii c) && Nat.leb (nat_of_ascii c) 57.

Fixpoint digits (s : string) : bool :=
  match s with
  | EmptyString => true
  | String c s' => digit c && digits s'
  end.

Definition decimal_numeral (s : string) : bool :=
  match s with
  | EmptyString => false
  | String _ _ => digits s
  end.

(** At most one element is tinted. *)
Definition at_most_one (flag : nat → bool) : Prop :=
  ∀ i j, flag i = true → flag j = true → i = j.

(** The events of a pointer that is over one element at a time and leaves
    an element before it enters the next: [over] is the element it is
    over, if any. *)
Fixpoint one_at_a_time (over : option nat) (es : list Event) : bool :=
  match es with
  | [] => true
  | mouseenter i :: es' =>
      match over with
      | None => Nat.ltb i item_count && one_at_a_time (Some i) es'
      | Some _ => false
      end
  | mouseleave i :: es' =>
      match over with
      | Some j => Nat.eqb i j && one_at_a_time None es'
      | None => false
      end
  end.

(** The sequences of events under which the page without React never has
    to tint a second element: no enter of an element arrives while another
    element is tinted.  [tinted] is the element that is tinted, if any.
    Leaves are free, whether of the tinted element, of another or of none,
    and so is a second enter of the tinted element; an event for no
    element reaches no listener. *)
Fixpoint no_overlap (tinted : option nat) (es : list Event) : bool :=
  match es with
  | [] => true
  | mouseenter i :: es' =>
      if decide (i < item_count) then
        match tinted with
        | None => no_overlap (Some i) es'
        | Some j => if decide (i = j) then no_overlap (Some j) es' else false
        end
      else no_overlap tinted es'
  | mouseleave i :: es' =>
      if decide (tinted = Some i) then no_overlap None es'
      else no_overlap tinted es'
  end.

(** ** Vocabulary of the further properties *)

(** A hover state the data model allows: none, or the identifier of one of
    the elements. *)
Definition none_or_item (s : string) : Prop :=
  s = "" ∨ ∃ i, i < item_count ∧ s = ToString i.

(** The elements that are tinted when the hover state is [s], in the order
    of the list. *)
Definition tinted (s : string) : list nat :=
  filter (λ j, Extracted.highlighted s j = true) (seq 0 item_count).

(** The children that run again when [App] hands [next] to children that
    last rendered as [prev]: those for which the comparison given to
    [React.memo] does not return [true]. *)
Definition rendered_again (prev : list Memoized.Memo)
    (next : list Memoized.ElementProps) : list nat :=
  filter
    (λ i, zip_with (λ m p, Memoized.propsAreEqual (Memoized.memoizedProps m) p)
                   prev next !! i = Some false)
    (seq 0 (length next)).

(** The element an event is for. *)
Definition target (e : Event) : nat :=
  match e with
  | mouseenter i => i
  | mouseleave i => i
  end.

(** Where a pointer that was over [over] is after the events [es]. *)
Fixpoint over_after (over : option nat) (es : list Event) : option nat :=
  match es with
  | [] => over
  | mouseenter i :: es' => over_after (Some i) es'
  | mouseleave _ :: es' => over_after None es'
  end.

(** The element entered last in [es] among those that exist, [entered] if
    there is none. *)
Fixpoint entered_last (entered : option nat) (es : list Event) : option nat :=
  match es with
  | [] => entered
  | mouseenter i :: es' =>
      entered_last (if decide (i < item_count) then Some i else entered) es'
  | mouseleave _ :: es' => entered_last entered es'
  end.

(** Whether element [i] is tinted after [es] on the page without React, by
    the events for [i] alone: the last of them decides. *)
Fixpoint tinted_after (i : nat) (before : bool) (es : list Event) : bool :=
  match es with
  | [] => before
  | mouseenter j :: es' =>
      tinted_after i (if decide (j = i) then true else before) es'
  | mouseleave j :: es' =>
      tinted_after i (if decide (j = i) then false else before) es'
  end.

Example ToString_0 : ToString 0 = "0".
Proof. reflexivity. Qed.
Example ToString_499 : ToString 499 = "499".
Proof. vm_compute. reflexivity. Qed.
Example Inline_run_3_7_3 :
  React.run Inline.App "" [mouseenter 3; mouseenter 7; mouseleave 3] = "7".
Proof. vm_compute. reflexivity. Qed.
Example Memoized_run_3_7_3 :
  Memoized.state
    (Memoized.run Memoized.mount [mouseenter 3; mouseenter 7; mouseleave 3])
  = "7".
Proof. vm_compute. reflexivity. Qed.
Example StableCallbacks_run_3_3 :
  StableCallbacks.state
    (StableCallbacks.run StableCallbacks.mount [mouseenter 3; mouseleave 3])
  = "3".
Proof. vm_compute. reflexivity. Qed.
Example StableCallbacks_skips :
  let r := StableCallbacks.run StableCallbacks.mount
             [mouseenter 3; mouseenter 7] in
  (λ m, Memoized.hoveredElementId (Memoized.memoizedProps m))
    <$> take 9 (StableCallbacks.shown r)
  = [""; ""; ""; "7"; ""; ""; ""; "7"; ""].
Proof. vm_compute. reflexivity. Qed.
Example Vanilla_run_3_7 :
  filter
    (λ i, Vanilla.highlighted
            (Vanilla.run Vanilla.root [mouseenter 3; mouseenter 7]) i = true)
    (seq 0 item_count)
  = [3; 7].
Proof. vm_compute. reflexivity. Qed.

(** ** The equality operators on strings *)

Lemma strict_eq_true (a b : string) : (a === b) = true ↔ a = b.
Proof. apply String.eqb_eq. Qed.

Lemma strict_eq_false (a b : string) : (a === b) = false ↔ a ≠ b.
Proof. apply String.eqb_neq. Qed.

Lemma loose_eq_strings (a b : string) : (a == b) = (a === b).
Proof. reflexivity. Qed.

Lemma loose_eq_true (a b : string) : (a == b) = true ↔ a = b.
Proof. rewrite loose_eq_strings. apply strict_eq_true. Qed.

Lemma loose_eq_false (a b : string) : (a == b) = false ↔ a ≠ b.
Proof. rewrite loose_eq_strings. apply strict_eq_false. Qed.

(** Across types the two operators part. *)
Example loose_not_strict :
  IsLooselyEqual JsNull JsUndefined = true
  ∧ IsStrictlyEqual JsNull JsUndefined = false.
Proof. split; reflexivity. Qed.

(** ** The identifiers *)

Lemma ToString_inj (i j : nat) : ToString i = ToString j → i = j.
Proof. unfold ToString. apply (inj pretty). Qed.

Lemma digit_pretty_N_char (x : N) : digit (pretty_N_char x) = true.
Proof. unfold pretty_N_char. repeat case_match; reflexivity. Qed.

Lemma digits_pretty_N_go (x : N) (s : string) :
  digits s = true → digits (pretty_N_go x s) = true.
Proof.
  revert s. induction (N.lt_wf_0 x) as [x _ IH]. intros s Hs.
  destruct (decide (x = 0%N)) as [->|Hx].
  - rewrite pretty_N_go_0. exact Hs.
  - rewrite pretty_N_go_step by lia.
    apply IH.
    + apply N.div_lt; lia.
    + simpl. rewrite digit_pretty_N_char. exact Hs.
Qed.

Lemma nonempty_pretty_N_go (x : N) (s : string) :
  s ≠ "" → pretty_N_go x s ≠ "".
Proof.
  revert s. induction (N.lt_wf_0 x) as [x _ IH]. intros s Hs.
  destruct (decide (x = 0%N)) as [->|Hx].
  - rewrite pretty_N_go_0. exact Hs.
  - rewrite pretty_N_go_step by lia.
    apply IH; [apply N.div_lt; lia | discriminate].
Qed.

Lemma ToString_nonempty (i : nat) : ToString i ≠ "".
Proof.
  unfold ToString, pretty, pretty_nat, pretty, pretty_N.
  case_decide as H0; [discriminate|].
  rewrite pretty_N_go_step by lia.
  apply nonempty_pretty_N_go. discriminate.
Qed.

Lemma ToString_digits (i : nat) : digits (ToString i) = true.
Proof.
  unfold ToString, pretty, pretty_nat, pretty, pretty_N.
  case_decide; [reflexivity|].
  apply digits_pretty_N_go. reflexivity.
Qed.

Lemma ToString_decimal (i : nat) : decimal_numeral (ToString i) = true.
Proof.
  pose proof (ToString_nonempty i) as Hne.
  pose proof (ToString_digits i) as Hd.
  destruct (ToString i); [congruence | exact Hd].
Qed.

(** ** What the React versions render *)

Lemma lookup_seq_items (i : nat) :
  seq 0 item_count !! i = if decide (i < item_count) then Some i else None.
Proof.
  case_decide.
  - apply lookup_seq_lt. assumption.
  - apply lookup_seq_ge. lia.
Qed.

Lemma Inline_lookup (s : string) (i : nat) :
  Inline.App s !! i
  = if decide (i < item_count) then Some (Inline.div s i) else None.
Proof.
  unfold Inline.App. rewrite list_lookup_fmap, lookup_seq_items.
  case_decide; reflexivity.
Qed.

Lemma Extracted_lookup (s : string) (i : nat) :
  Extracted.App s !! i
  = if decide (i < item_count)
    then Some (Extracted.Element
                 {| Extracted.id := ToString i;
                    Extracted.hoveredElementId := s;
                    Extracted.onMouseEnter := Extracted.handleMouseEnter;
                    Extracted.onMouseLeave := Extracted.handleMouseLeave s |})
    else None.
Proof.
  unfold Extracted.App. rewrite list_lookup_fmap, lookup_seq_items.
  case_decide; reflexivity.
Qed.

(** The rendering rule: element [i] is tinted exactly when the state is its
    identifier. *)
Lemma Inline_highlighted (s : string) (i : nat) :
  Inline.highlighted s i = true ↔ i < item_count ∧ s = ToString i.
Proof.
  unfold Inline.highlighted, React.highlighted. rewrite Inline_lookup.
  case_decide as Hi; [|split; [discriminate | tauto]].
  cbn. destruct (String.eqb_spec s (ToString i)) as [->|Hne].
  - split; [auto | reflexivity].
  - split; [discriminate | tauto].
Qed.

Lemma Extracted_highlighted (s : string) (i : nat) :
  Extracted.highlighted s i = true ↔ i < item_count ∧ s = ToString i.
Proof.
  unfold Extracted.highlighted, React.highlighted. rewrite Extracted_lookup.
  case_decide as Hi; [|split; [discriminate | tauto]].
  cbn. destruct (String.eqb_spec s (ToString i)) as [->|Hne].
  - split; [auto | reflexivity].
  - split; [discriminate | tauto].
Qed.

(** An event runs the handler of its element with that element's
    identifier; an event for no element does nothing. *)
Lemma Inline_dispatch_enter (s : string) (i : nat) :
  React.dispatch Inline.App s (mouseenter i)
  = if decide (i < item_count) then Inline.onEnter (ToString i) s else s.
Proof.
  unfold React.dispatch, React.fire. rewrite Inline_lookup.
  case_decide; reflexivity.
Qed.

Lemma Inline_dispatch_leave (s : string) (i : nat) :
  React.dispatch Inline.App s (mouseleave i)
  = if decide (i < item_count) then Inline.onLeave (ToString i) s else s.
Proof.
  unfold React.dispatch, React.fire. rewrite Inline_lookup.
  case_decide; reflexivity.
Qed.

Lemma Extracted_dispatch_enter (s : string) (i : nat) :
  React.dispatch Extracted.App s (mouseenter i)
  = if decide (i < item_count) then Extracted.onEnter (ToString i) s else s.
Proof.
  unfold React.dispatch, React.fire. rewrite Extracted_lookup.
  case_decide; reflexivity.
Qed.

Lemma Extracted_dispatch_leave (s : string) (i : nat) :
  React.dispatch Extracted.App s (mouseleave i)
  = if decide (i < item_count) then Extracted.onLeave (ToString i) s else s.
Proof.
  unfold React.dispatch, React.fire. rewrite Extracted_lookup.
  case_decide; reflexivity.
Qed.

(** ** The two operations, handler by handler *)

Lemma Inline_onEnter (id s : string) : Inline.onEnter id s = id.
Proof. reflexivity. Qed.

Lemma Extracted_onEnter (id s : string) : Extracted.onEnter id s = id.
Proof. reflexivity. Qed.

Lemma Memoized_onEnter (n : nat) (id s : string) :
  Memoized.onEnter n id s = id.
Proof. reflexivity. Qed.

Lemma Inline_onLeave (id s : string) :
  Inline.onLeave id s = if decide (s = id) then "" else s.
Proof.
  unfold Inline.onLeave, Inline.onMouseLeave. cbn.
  destruct (String.eqb_spec id s); case_decide; (reflexivity || congruence).
Qed.

Lemma Extracted_onLeave (id s : string) :
  Extracted.onLeave id s = if decide (s = id) then "" else s.
Proof.
  unfold Extracted.onLeave, Extracted.handleMouseLeave. cbn.
  destruct (String.eqb_spec id s); case_decide; (reflexivity || congruence).
Qed.

Lemma Memoized_onLeave (n : nat) (id s : string) :
  Memoized.onLeave n id s = if decide (s = id) then "" else s.
Proof.
  unfold Memoized.onLeave, Memoized.handleMouseLeave. cbn.
  destruct (String.eqb_spec id s); case_decide; (reflexivity || congruence).
Qed.

(** ** The memoized version never shows a stale child

    Every render of [App] allocates its two handlers anew, so the
    comparison given to [React.memo] finds the props of the previous
    render different and lets no child be skipped. *)

Lemma propsAreEqual_other_render (p q : Memoized.ElementProps) :
  Memoized.ref (Memoized.onMouseEnter p)
  ≠ Memoized.ref (Memoized.onMouseEnter q) →
  Memoized.propsAreEqual p q = false.
Proof.
  intros Hne. unfold Memoized.propsAreEqual, Memoized.isEqual.
  repeat case_match; try reflexivity.
  apply Nat.eqb_neq in Hne. rewrite Hne.
  rewrite andb_false_r. reflexivity.
Qed.

Lemma Memoized_rerender (n n' : nat) (s s' : string) :
  n ≠ n' →
  zip_with Memoized.MemoedElement
           (Memoized.render_child <$> Memoized.App n s) (Memoized.App n' s')
  = Memoized.render_child <$> Memoized.App n' s'.
Proof.
  intros Hn. unfold Memoized.App.
  rewrite zip_with_fmap_l, zip_with_fmap_l, zip_with_fmap_r, zip_with_diag.
  rewrite <- list_fmap_compose.
  apply list_fmap_ext. intros _ i _. cbn.
  unfold Memoized.MemoedElement.
  rewrite propsAreEqual_other_render; [reflexivity|].
  cbn [Memoized.memoizedProps Memoized.render_child Memoized.onMouseEnter
       Memoized.handleMouseEnter Memoized.ref].
  lia.
Qed.

Lemma Memoized_lookup (n : nat) (s : string) (i : nat) :
  (Memoized.output <$> (Memoized.render_child <$> Memoized.App n s)) !! i
  = if decide (i < item_count)
    then Some (Memoized.Element
                 {| Memoized.id := ToString i;
                    Memoized.hoveredElementId := s;
                    Memoized.onMouseEnter := Memoized.handleMouseEnter n;
                    Memoized.onMouseLeave := Memoized.handleMouseLeave n s |})
    else None.
Proof.
  unfold Memoized.App.
  rewrite !list_lookup_fmap, lookup_seq_items.
  case_decide; reflexivity.
Qed.

Lemma Memoized_highlighted (r : Memoized.Root) (i : nat) :
  Memoized.up_to_date r →
  Memoized.highlighted r i = true
  ↔ i < item_count ∧ Memoized.state r = ToString i.
Proof.
  intros (n & _ & Hshown).
  unfold Memoized.highlighted, React.highlighted.
  rewrite Hshown, Memoized_lookup.
  case_decide as Hi; [|split; [discriminate | tauto]].
  cbn. destruct (String.eqb_spec (Memoized.state r) (ToString i)) as [->|Hne].
  - split; [auto | reflexivity].
  - split; [discriminate | tauto].
Qed.

(** What a handler asks for, by event, when the screen is up to date. *)
Lemma Memoized_fire (r : Memoized.Root) (e : Event) :
  Memoized.up_to_date r →
  React.fire (Memoized.output <$> Memoized.shown r) e
  = match e with
    | mouseenter i =>
        if decide (i < item_count) then Some (ToString i) else None
    | mouseleave i =>
        if decide (i < item_count ∧ Memoized.state r = ToString i)
        then Some "" else None
    end.
Proof.
  intros (n & _ & Hshown). unfold React.fire.
  rewrite Hshown. destruct e as [i|i]; rewrite Memoized_lookup.
  - case_decide; reflexivity.
  - case_decide as Hi; cbn.
    + destruct (String.eqb_spec (ToString i) (Memoized.state r));
        case_decide; (reflexivity || (exfalso; intuition congruence)).
    + case_decide; [tauto | reflexivity].
Qed.

Lemma Memoized_dispatch_up_to_date (r : Memoized.Root) (e : Event) :
  Memoized.up_to_date r → Memoized.up_to_date (Memoized.dispatch r e).
Proof.
  intros Hr. unfold Memoized.dispatch.
  destruct (React.fire _ e) as [s|]; [|exact Hr].
  destruct (String.eqb s (Memoized.state r)); [exact Hr|].
  destruct Hr as (n & Hn & Hshown).
  exists (Memoized.renders r). cbn. split; [lia|].
  rewrite Hshown. apply Memoized_rerender. lia.
Qed.

Lemma Memoized_mount_up_to_date : Memoized.up_to_date Memoized.mount.
Proof. exists 0. split; [cbn; lia | reflexivity]. Qed.

Lemma Memoized_run_up_to_date (r : Memoized.Root) (es : list Event) :
  Memoized.up_to_date r → Memoized.up_to_date (Memoized.run r es).
Proof.
  revert r. induction es as [|e es IH]; intros r Hr; [exact Hr|].
  cbn. apply IH, Memoized_dispatch_up_to_date, Hr.
Qed.

(** The state after an event is the state the operation computes. *)
Lemma Memoized_dispatch_enter (r : Memoized.Root) (i : nat) :
  Memoized.up_to_date r →
  Memoized.state (Memoized.dispatch r (mouseenter i))
  = if decide (i < item_count)
    then Memoized.onEnter (Memoized.renders r) (ToString i) (Memoized.state r)
    else Memoized.state r.
Proof.
  intros Hr. unfold Memoized.dispatch. rewrite Memoized_fire by exact Hr.
  case_decide; [|reflexivity]. rewrite Memoized_onEnter.
  destruct (String.eqb_spec (ToString i) (Memoized.state r));
    [congruence | reflexivity].
Qed.

Lemma Memoized_dispatch_leave (r : Memoized.Root) (i : nat) :
  Memoized.up_to_date r →
  Memoized.state (Memoized.dispatch r (mouseleave i))
  = if decide (i < item_count)
    then Memoized.onLeave (Memoized.renders r) (ToString i) (Memoized.state r)
    else Memoized.state r.
Proof.
  intros Hr. unfold Memoized.dispatch. rewrite Memoized_fire by exact Hr.
  rewrite Memoized_onLeave.
  repeat case_decide; try reflexivity; try (exfalso; tauto).
  destruct (String.eqb_spec "" (Memoized.state r));
    [congruence | reflexivity].
Qed.

(** No element is tinted while the state is the empty string. *)
Lemma Inline_none_highlighted (j : nat) : Inline.highlighted "" j = false.
Proof.
  apply not_true_is_false. rewrite Inline_highlighted.
  intros [_ H]. symmetry in H. exact (ToString_nonempty j H).
Qed.

Lemma Extracted_none_highlighted (j : nat) : Extracted.highlighted "" j = false.
Proof.
  apply not_true_is_false. rewrite Extracted_highlighted.
  intros [_ H]. symmetry in H. exact (ToString_nonempty j H).
Qed.

Lemma Memoized_none_highlighted (r : Memoized.Root) (j : nat) :
  Memoized.up_to_date r → Memoized.state r = "" →
  Memoized.highlighted r j = false.
Proof.
  intros Hr Hs. apply not_true_is_false.
  rewrite Memoized_highlighted by exact Hr. rewrite Hs.
  intros [_ H]. symmetry in H. exact (ToString_nonempty j H).
Qed.

(** ** The version without React *)

Lemma alter_fixed {A} (f : A → A) (l : list A) (i : nat) (x : A) :
  l !! i = Some x → f x = x → alter f i l = l.
Proof.
  intros Hi Hx. apply list_eq. intros j.
  destruct (decide (i = j)) as [<-|Hne].
  - rewrite list_lookup_alter_eq, Hi. cbn. congruence.
  - apply list_lookup_alter_ne. exact Hne.
Qed.

Lemma alter_out_of_range {A} (f : A → A) (l : list A) (i : nat) :
  l !! i = None → alter f i l = l.
Proof.
  intros Hi. apply list_eq. intros j.
  destruct (decide (i = j)) as [<-|Hne].
  - rewrite list_lookup_alter_eq, Hi. reflexivity.
  - apply list_lookup_alter_ne. exact Hne.
Qed.

Lemma set_backgroundColor_same (e : Vanilla.HTMLDivElement) :
  Vanilla.set_backgroundColor (Vanilla.backgroundColor e) e = e.
Proof. destruct e. reflexivity. Qed.

Lemma Vanilla_length_dispatch (dom : list Vanilla.HTMLDivElement) (e : Event) :
  length (Vanilla.dispatch dom e) = length dom.
Proof. destruct e; apply length_alter. Qed.

Lemma Vanilla_length_run (dom : list Vanilla.HTMLDivElement) (es : list Event) :
  length (Vanilla.run dom es) = length dom.
Proof.
  revert dom. induction es as [|e es IH]; intros dom; [reflexivity|].
  cbn. rewrite IH. apply Vanilla_length_dispatch.
Qed.

Lemma Vanilla_two_colours_dispatch (dom : list Vanilla.HTMLDivElement)
    (e : Event) :
  Vanilla.two_colours dom → Vanilla.two_colours (Vanilla.dispatch dom e).
Proof.
  intros Hdom j x. destruct e as [i|i]; cbn;
    (destruct (decide (i = j)) as [<-|Hne];
     [ rewrite list_lookup_alter_eq;
       destruct (dom !! i); [|discriminate];
       intros [= <-]; cbn; auto
     | rewrite list_lookup_alter_ne by exact Hne; apply Hdom ]).
Qed.

Lemma Vanilla_two_colours_root : Vanilla.two_colours Vanilla.root.
Proof.
  intros i e Hi. apply lookup_replicate in Hi as [-> _]. left. reflexivity.
Qed.

Lemma Vanilla_two_colours_run (dom : list Vanilla.HTMLDivElement)
    (es : list Event) :
  Vanilla.two_colours dom → Vanilla.two_colours (Vanilla.run dom es).
Proof.
  revert dom. induction es as [|e es IH]; intros dom Hdom; [exact Hdom|].
  cbn. apply IH, Vanilla_two_colours_dispatch, Hdom.
Qed.

(** A listener changes the colour of its own element and of no other. *)
Lemma Vanilla_highlighted_other (dom : list Vanilla.HTMLDivElement)
    (e : Event) (j : nat) :
  match e with mouseenter i | mouseleave i => i ≠ j end →
  Vanilla.highlighted (Vanilla.dispatch dom e) j = Vanilla.highlighted dom j.
Proof.
  intros Hne. unfold Vanilla.highlighted.
  destruct e as [i|i]; cbn; rewrite list_lookup_alter_ne by exact Hne;
    reflexivity.
Qed.

Lemma Vanilla_highlighted_enter (dom : list Vanilla.HTMLDivElement) (i : nat) :
  i < length dom → Vanilla.highlighted (Vanilla.onEnter i dom) i = true.
Proof.
  intros Hi. apply lookup_lt_is_Some_2 in Hi as [e He].
  unfold Vanilla.highlighted, Vanilla.onEnter. cbn.
  rewrite list_lookup_alter_eq, He. reflexivity.
Qed.

Lemma Vanilla_highlighted_leave (dom : list Vanilla.HTMLDivElement) (i : nat) :
  Vanilla.highlighted (Vanilla.onLeave i dom) i = false.
Proof.
  unfold Vanilla.highlighted, Vanilla.onLeave. cbn.
  rewrite list_lookup_alter_eq. destruct (dom !! i); reflexivity.
Qed.

(** Leaving an element that is not tinted changes nothing. *)
Lemma Vanilla_leave_untinted (dom : list Vanilla.HTMLDivElement) (i : nat) :
  Vanilla.two_colours dom → Vanilla.highlighted dom i = false →
  Vanilla.onLeave i dom = dom.
Proof.
  intros Hdom Hi. unfold Vanilla.onLeave. cbn.
  unfold Vanilla.highlighted in Hi.
  destruct (dom !! i) as [e|] eqn:He.
  - apply (alter_fixed _ _ _ e He).
    destruct (Hdom i e He) as [H0|H1].
    + rewrite <- H0 at 1. apply set_backgroundColor_same.
    + rewrite H1 in Hi. discriminate.
  - apply alter_out_of_range. exact He.
Qed.

(** ** One run, three React versions *)

Lemma Inline_as_Extracted (s : string) (e : Event) :
  React.dispatch Inline.App s e = React.dispatch Extracted.App s e.
Proof.
  destruct e as [i|i].
  - rewrite Inline_dispatch_enter, Extracted_dispatch_enter. reflexivity.
  - rewrite Inline_dispatch_leave, Extracted_dispatch_leave. reflexivity.
Qed.

Lemma Memoized_as_Extracted (r : Memoized.Root) (e : Event) :
  Memoized.up_to_date r →
  Memoized.state (Memoized.dispatch r e)
  = React.dispatch Extracted.App (Memoized.state r) e.
Proof.
  intros Hr. destruct e as [i|i].
  - rewrite Memoized_dispatch_enter by exact Hr.
    rewrite Extracted_dispatch_enter. reflexivity.
  - rewrite Memoized_dispatch_leave by exact Hr.
    rewrite Extracted_dispatch_leave. reflexivity.
Qed.

Lemma Inline_run_as_Extracted (s : string) (es : list Event) :
  React.run Inline.App s es = React.run Extracted.App s es.
Proof.
  revert s. induction es as [|e es IH]; intros s; [reflexivity|].
  unfold React.run in *. cbn [foldl].
  rewrite Inline_as_Extracted. apply IH.
Qed.

Lemma Memoized_run_as_Extracted (r : Memoized.Root) (es : list Event) :
  Memoized.up_to_date r →
  Memoized.state (Memoized.run r es)
  = React.run Extracted.App (Memoized.state r) es.
Proof.
  revert r. induction es as [|e es IH]; intros r Hr; [reflexivity|].
  unfold Memoized.run, React.run in *. cbn [foldl].
  rewrite IH by (apply Memoized_dispatch_up_to_date, Hr).
  rewrite Memoized_as_Extracted by exact Hr. reflexivity.
Qed.

(** The state after entering an element and after leaving one. *)
Lemma Extracted_after_enter (s : string) (i : nat) :
  i < item_count →
  React.dispatch Extracted.App s (mouseenter i) = ToString i.
Proof.
  intros Hi. rewrite Extracted_dispatch_enter.
  case_decide; [reflexivity | contradiction].
Qed.

Lemma Extracted_after_leave (s : string) (i : nat) :
  i < item_count →
  React.dispatch Extracted.App s (mouseleave i)
  = if decide (s = ToString i) then "" else s.
Proof.
  intros Hi. rewrite Extracted_dispatch_leave, Extracted_onLeave.
  case_decide; [reflexivity | contradiction].
Qed.

(** The same sequence in the version without React: item 7 ends tinted and
    item 3 does not. *)
Lemma Vanilla_late_leave (es : list Event) :
  let dom := Vanilla.run (Vanilla.run Vanilla.root es)
                         [mouseenter 3; mouseenter 7; mouseleave 3] in
  Vanilla.highlighted dom 7 = true ∧ Vanilla.highlighted dom 3 = false.
Proof.
  intros dom. subst dom. set (dom := Vanilla.run Vanilla.root es).
  change (Vanilla.run dom [mouseenter 3; mouseenter 7; mouseleave 3])
    with (Vanilla.onLeave 3 (Vanilla.onEnter 7 (Vanilla.onEnter 3 dom))).
  split.
  - unfold Vanilla.onLeave.
    rewrite Vanilla_highlighted_other by (cbn; lia).
    apply Vanilla_highlighted_enter.
    unfold Vanilla.onEnter, dom.
    rewrite Vanilla_length_dispatch, Vanilla_length_run.
    unfold Vanilla.root. rewrite length_replicate. unfold item_count. lia.
  - apply Vanilla_highlighted_leave.
Qed.

(** ** Mutual exclusion *)

Lemma Inline_at_most_one (s : string) : at_most_one (Inline.highlighted s).
Proof.
  intros i j Hi Hj.
  apply Inline_highlighted in Hi as [_ ->].
  apply Inline_highlighted in Hj as [_ Hj].
  apply ToString_inj, Hj.
Qed.

Lemma Extracted_at_most_one (s : string) :
  at_most_one (Extracted.highlighted s).
Proof.
  intros i j Hi Hj.
  apply Extracted_highlighted in Hi as [_ ->].
  apply Extracted_highlighted in Hj as [_ Hj].
  apply ToString_inj, Hj.
Qed.

Lemma Memoized_at_most_one (r : Memoized.Root) :
  Memoized.up_to_date r → at_most_one (Memoized.highlighted r).
Proof.
  intros Hr i j Hi Hj.
  apply (Memoized_highlighted r i Hr) in Hi as [_ Hi].
  apply (Memoized_highlighted r j Hr) in Hj as [_ Hj].
  apply ToString_inj. congruence.
Qed.

(** With a pointer that leaves an element before it enters the next, the
    page without React tints the element the pointer is over and no
    other. *)
Lemma Vanilla_tracks_root : Vanilla.tracks None Vanilla.root.
Proof.
  split.
  - unfold Vanilla.root. apply length_replicate.
  - intros i. unfold Vanilla.highlighted, Vanilla.root.
    split; [|discriminate].
    destruct (replicate item_count Vanilla.element !! i) as [e|] eqn:He;
      [|discriminate].
    apply lookup_replicate in He as [-> _]. discriminate.
Qed.

Lemma Vanilla_tracks_enter (dom : list Vanilla.HTMLDivElement) (i : nat) :
  Vanilla.tracks None dom → i < item_count →
  Vanilla.tracks (Some i) (Vanilla.dispatch dom (mouseenter i)).
Proof.
  intros [Hlen Hdom] Hi. split.
  - rewrite Vanilla_length_dispatch. exact Hlen.
  - intros j. destruct (decide (i = j)) as [<-|Hne].
    + split; [reflexivity|]. intros _.
      apply Vanilla_highlighted_enter. lia.
    + rewrite Vanilla_highlighted_other by exact Hne.
      rewrite Hdom. split; [discriminate | congruence].
Qed.

Lemma Vanilla_tracks_leave (dom : list Vanilla.HTMLDivElement) (i : nat) :
  Vanilla.tracks (Some i) dom →
  Vanilla.tracks None (Vanilla.dispatch dom (mouseleave i)).
Proof.
  intros [Hlen Hdom]. split.
  - rewrite Vanilla_length_dispatch. exact Hlen.
  - intros j. destruct (decide (i = j)) as [<-|Hne].
    + pose proof (Vanilla_highlighted_leave dom i) as Hl.
      unfold Vanilla.onLeave in Hl. rewrite Hl.
      split; discriminate.
    + rewrite Vanilla_highlighted_other by exact Hne.
      rewrite Hdom. split; [congruence | discriminate].
Qed.

Lemma Vanilla_highlighted_dispatch (dom : list Vanilla.HTMLDivElement)
    (e : Event) (i : nat) :
  i < length dom →
  Vanilla.highlighted (Vanilla.dispatch dom e) i
  = match e with
    | mouseenter j => if decide (j = i) then true else Vanilla.highlighted dom i
    | mouseleave j =>
        if decide (j = i) then false else Vanilla.highlighted dom i
    end.
Proof.
  intros Hi. destruct e as [j|j]; case_decide as Hj.
  - subst j. apply Vanilla_highlighted_enter, Hi.
  - apply Vanilla_highlighted_other. exact Hj.
  - subst j. apply Vanilla_highlighted_leave.
  - apply Vanilla_highlighted_other. exact Hj.
Qed.

Lemma Vanilla_tracks_tinted_exists (tinted : option nat)
    (dom : list Vanilla.HTMLDivElement) (j : nat) :
  Vanilla.tracks tinted dom → tinted = Some j → j < item_count.
Proof.
  intros [Hlen Hdom] Hj. apply Hdom in Hj.
  unfold Vanilla.highlighted in Hj.
  destruct (dom !! j) as [e|] eqn:He; [|discriminate].
  apply lookup_lt_Some in He. lia.
Qed.

(** One event, under the condition of [no_overlap]: what is tinted
    afterwards. *)
Lemma Vanilla_tracks_step (tinted : option nat)
    (dom : list Vanilla.HTMLDivElement) (e : Event) :
  Vanilla.tracks tinted dom →
  match e with
  | mouseenter i =>
      i < item_count → tinted = None ∨ tinted = Some i
  | mouseleave _ => True
  end →
  Vanilla.tracks
    match e with
    | mouseenter i => if decide (i < item_count) then Some i else tinted
    | mouseleave i => if decide (tinted = Some i) then None else tinted
    end
    (Vanilla.dispatch dom e).
Proof.
  intros Hdom He. pose proof Hdom as [Hlen Hflag]. split.
  { rewrite Vanilla_length_dispatch. exact Hlen. }
  intros k. destruct (decide (k < item_count)) as [Hk|Hk].
  - rewrite Vanilla_highlighted_dispatch by lia.
    destruct e as [i|i].
    + destruct (decide (i = k)) as [->|Hik].
      * case_decide; [tauto | contradiction].
      * rewrite Hflag. case_decide as Hi; [|reflexivity].
        destruct (He Hi) as [->| ->]; split; congruence.
    + destruct (decide (i = k)) as [->|Hik].
      * case_decide as Ht; [split; discriminate|].
        split; [discriminate | congruence].
      * rewrite Hflag. case_decide as Ht; [|reflexivity].
        split; [congruence | discriminate].
  - assert (Vanilla.highlighted (Vanilla.dispatch dom e) k = false) as ->.
    { unfold Vanilla.highlighted.
      rewrite (lookup_ge_None_2 (Vanilla.dispatch dom e) k);
        [reflexivity|].
      rewrite Vanilla_length_dispatch. lia. }
    split; [discriminate|]. intros Ht. exfalso.
    destruct e as [i|i].
    + case_decide as Hi.
      * injection Ht as ->. contradiction.
      * exact (Hk (Vanilla_tracks_tinted_exists _ _ _ Hdom Ht)).
    + case_decide; [discriminate|].
      exact (Hk (Vanilla_tracks_tinted_exists _ _ _ Hdom Ht)).
Qed.

Lemma Vanilla_no_overlap_tracks (es : list Event) :
  ∀ (tinted : option nat) (dom : list Vanilla.HTMLDivElement) (k : nat),
    Vanilla.tracks tinted dom → no_overlap tinted es = true →
    ∃ tinted', Vanilla.tracks tinted' (Vanilla.run dom (take k es)).
Proof.
  induction es as [|e es IH]; intros tinted dom k Hdom Hes.
  - rewrite take_nil. exists tinted. exact Hdom.
  - destruct k as [|k]; [exists tinted; exact Hdom|].
    change (Vanilla.run dom (take (S k) (e :: es)))
      with (Vanilla.run (Vanilla.dispatch dom e) (take k es)).
    cbn [no_overlap] in Hes. destruct e as [i|i].
    + eapply IH; [apply (Vanilla_tracks_step _ _ (mouseenter i) Hdom)|].
      * intros Hi. case_decide; [|contradiction].
        destruct tinted as [j|]; [|auto].
        case_decide; [subst; auto | discriminate].
      * case_decide; [|exact Hes].
        destruct tinted as [j|]; [|exact Hes].
        case_decide; [subst; exact Hes | discriminate].
    + eapply IH; [apply (Vanilla_tracks_step _ _ (mouseleave i) Hdom);
                  exact I|].
      case_decide; exact Hes.
Qed.

Lemma Vanilla_at_most_one_no_overlap (es : list Event) :
  ∀ (tinted : option nat) (dom : list Vanilla.HTMLDivElement),
    Vanilla.tracks tinted dom →
    (∀ k, at_most_one (Vanilla.highlighted (Vanilla.run dom (take k es)))) →
    no_overlap tinted es = true.
Proof.
  induction es as [|e es IH]; intros tinted dom Hdom Hone; [reflexivity|].
  assert (∀ k, at_most_one
                 (Vanilla.highlighted
                    (Vanilla.run (Vanilla.dispatch dom e) (take k es))))
    as Htail by (intros k; exact (Hone (S k))).
  pose proof (Hone 1) as H1.
  change (Vanilla.run dom (take 1 (e :: es)))
    with (Vanilla.dispatch dom e) in H1.
  cbn [no_overlap]. destruct e as [i|i].
  - case_decide as Hi.
    + destruct tinted as [j|].
      * case_decide as Hij.
        -- subst j. eapply IH; [|exact Htail].
           pose proof (Vanilla_tracks_step _ _ (mouseenter i) Hdom) as Hstep.
           cbn in Hstep. rewrite decide_True in Hstep by exact Hi.
           apply Hstep. auto.
        -- exfalso. apply Hij. apply H1.
           ++ apply Vanilla_highlighted_enter. destruct Hdom as [-> _].
              exact Hi.
           ++ rewrite Vanilla_highlighted_other by exact Hij.
              apply Hdom. reflexivity.
      * eapply IH; [|exact Htail].
        pose proof (Vanilla_tracks_step _ _ (mouseenter i) Hdom) as Hstep.
        cbn in Hstep. rewrite decide_True in Hstep by exact Hi.
        apply Hstep. auto.
    + eapply IH; [|exact Htail].
      pose proof (Vanilla_tracks_step _ _ (mouseenter i) Hdom) as Hstep.
      cbn in Hstep. rewrite decide_False in Hstep by exact Hi.
      apply Hstep. intros; contradiction.
  - pose proof (Vanilla_tracks_step _ _ (mouseleave i) Hdom I) as Hstep.
    cbn in Hstep. case_decide; eapply IH; eauto.
Qed.

(** The sequences of one pointer are among them. *)
Lemma one_at_a_time_no_overlap (es : list Event) :
  ∀ over : option nat,
    one_at_a_time over es = true → no_overlap over es = true.
Proof.
  induction es as [|e es IH]; intros over Hes; [reflexivity|].
  cbn [one_at_a_time no_overlap] in *.
  destruct e as [i|i], over as [j|]; try discriminate.
  - apply andb_true_iff in Hes as [Hi Hes]. apply Nat.ltb_lt in Hi.
    rewrite decide_True by exact Hi. apply IH, Hes.
  - apply andb_true_iff in Hes as [Hj Hes]. apply Nat.eqb_eq in Hj as <-.
    rewrite decide_True by reflexivity. apply IH, Hes.
Qed.

Lemma Vanilla_tracks_at_most_one (over : option nat)
    (dom : list Vanilla.HTMLDivElement) :
  Vanilla.tracks over dom → at_most_one (Vanilla.highlighted dom).
Proof.
  intros [_ Hdom] i j Hi Hj.
  apply Hdom in Hi. apply Hdom in Hj. congruence.
Qed.

(** ** The listing with [useCallback]

    With handlers that keep their identity the comparison lets React skip
    every child that neither was nor becomes the hovered one; what is on
    the screen stays right all the same.  The handlers are those of the
    first render for good, and the leave handler compares with the hover
    state of that render, the empty string. *)

Lemma StableCallbacks_App_lookup (n : nat) (s : string) (i : nat) :
  StableCallbacks.App n
    (Some (Memoized.handleMouseEnter 0),
     Some (Memoized.handleMouseLeave 0 React.initial)) s !! i
  = if decide (i < item_count)
    then Some {| Memoized.id := ToString i;
                 Memoized.hoveredElementId := s;
                 Memoized.onMouseEnter := Memoized.handleMouseEnter 0;
                 Memoized.onMouseLeave :=
                   Memoized.handleMouseLeave 0 React.initial |}
    else None.
Proof.
  unfold StableCallbacks.App.
  rewrite list_lookup_fmap, lookup_seq_items.
  case_decide; reflexivity.
Qed.

Lemma StableCallbacks_mount_settled :
  StableCallbacks.settled StableCallbacks.mount.
Proof.
  split; [reflexivity|]. split.
  - unfold StableCallbacks.mount, StableCallbacks.App. cbn [StableCallbacks.shown].
    rewrite !length_fmap. apply length_seq.
  - intros i m. unfold StableCallbacks.mount, StableCallbacks.App.
    cbn [StableCallbacks.shown StableCallbacks.state].
    rewrite !list_lookup_fmap, lookup_seq_items.
    case_decide; [|discriminate].
    intros [= <-]. repeat split.
Qed.

Lemma StableCallbacks_dispatch_settled (r : StableCallbacks.Root) (e : Event) :
  StableCallbacks.settled r →
  StableCallbacks.settled (StableCallbacks.dispatch r e).
Proof.
  intros Hr. unfold StableCallbacks.dispatch.
  destruct (React.fire _ e) as [s|]; [|exact Hr].
  destruct (String.eqb s (StableCallbacks.state r)); [exact Hr|].
  destruct Hr as (Hhooks & Hlen & Hshown).
  split; [cbn [StableCallbacks.hooks]; rewrite Hhooks; reflexivity|]. split.
  - cbn [StableCallbacks.shown]. rewrite length_zip_with_l_eq; [exact Hlen|].
    unfold StableCallbacks.App. rewrite length_fmap, length_seq. exact Hlen.
  - intros i m. cbn [StableCallbacks.shown StableCallbacks.state].
    rewrite lookup_zip_with, Hhooks, StableCallbacks_App_lookup.
    destruct (StableCallbacks.shown r !! i) as [m0|] eqn:Hm0; [|discriminate].
    destruct (Hshown i m0 Hm0) as (Hout & Hid & Henter & Hleave & Hflag).
    case_decide; [|discriminate]. cbn [mbind option_bind].
    intros [= <-]. unfold Memoized.MemoedElement.
    destruct (Memoized.propsAreEqual _ _) eqn:Heq.
    + repeat split; try assumption.
      unfold Memoized.propsAreEqual in Heq.
      cbn [Memoized.hoveredElementId Memoized.id] in Heq.
      destruct (Memoized.hoveredElementId (Memoized.memoizedProps m0)
                === ToString i); [discriminate|].
      destruct (s === ToString i); [discriminate | reflexivity].
    + repeat split.
Qed.

Lemma StableCallbacks_run_settled (r : StableCallbacks.Root)
    (es : list Event) :
  StableCallbacks.settled r →
  StableCallbacks.settled (StableCallbacks.run r es).
Proof.
  revert r. induction es as [|e es IH]; intros r Hr; [exact Hr|].
  unfold StableCallbacks.run in *. cbn [foldl].
  apply IH, StableCallbacks_dispatch_settled, Hr.
Qed.

Lemma StableCallbacks_highlighted (r : StableCallbacks.Root) (i : nat) :
  StableCallbacks.settled r →
  StableCallbacks.highlighted r i = true
  ↔ i < item_count ∧ StableCallbacks.state r = ToString i.
Proof.
  intros (_ & Hlen & Hshown).
  unfold StableCallbacks.highlighted, React.highlighted.
  rewrite list_lookup_fmap.
  destruct (StableCallbacks.shown r !! i) as [m|] eqn:Hm.
  - pose proof (lookup_lt_Some _ _ _ Hm) as Hi. rewrite Hlen in Hi.
    destruct (Hshown i m Hm) as (Hout & Hid & _ & _ & Hflag).
    cbn [fmap option_fmap option_map]. rewrite Hout. cbn.
    rewrite Hid.
    change (String.eqb (Memoized.hoveredElementId (Memoized.memoizedProps m))
                       (ToString i))
      with (Memoized.hoveredElementId (Memoized.memoizedProps m)
            === ToString i).
    rewrite Hflag. cbn [IsStrictlyEqual].
    destruct (String.eqb_spec (StableCallbacks.state r) (ToString i)).
    + split; [auto | reflexivity].
    + split; [discriminate | tauto].
  - apply lookup_ge_None_1 in Hm. rewrite Hlen in Hm. cbn.
    split; [discriminate | lia].
Qed.

(** What the handlers ask for: the leave handler never asks for anything. *)
Lemma StableCallbacks_fire (r : StableCallbacks.Root) (e : Event) :
  StableCallbacks.settled r →
  React.fire (Memoized.output <$> StableCallbacks.shown r) e
  = match e with
    | mouseenter i =>
        if decide (i < item_count) then Some (ToString i) else None
    | mouseleave i => None
    end.
Proof.
  intros (_ & Hlen & Hshown). unfold React.fire.
  destruct e as [i|i]; rewrite list_lookup_fmap;
    (destruct (StableCallbacks.shown r !! i) as [m|] eqn:Hm;
     [ pose proof (lookup_lt_Some _ _ _ Hm) as Hi; rewrite Hlen in Hi;
       destruct (Hshown i m Hm) as (Hout & Hid & Henter & Hleave & _);
       cbn [fmap option_fmap option_map mbind option_bind];
       rewrite Hout; cbn; rewrite ?Henter, ?Hleave, Hid
     | apply lookup_ge_None_1 in Hm; rewrite Hlen in Hm; cbn ]).
  - cbn. case_decide; [reflexivity | contradiction].
  - case_decide; [lia | reflexivity].
  - cbn. destruct (String.eqb_spec (ToString i) React.initial) as [H0|_];
      [|reflexivity].
    destruct (ToString_nonempty i H0).
  - reflexivity.
Qed.

(** In this listing no leave event changes anything: once an element has
    been entered the hover state is never the empty string again. *)
Lemma StableCallbacks_leave_never_clears (r : StableCallbacks.Root)
    (i : nat) :
  StableCallbacks.settled r →
  StableCallbacks.dispatch r (mouseleave i) = r.
Proof.
  intros Hr. unfold StableCallbacks.dispatch.
  rewrite StableCallbacks_fire by exact Hr. reflexivity.
Qed.

Lemma StableCallbacks_after_enter (r : StableCallbacks.Root) (i : nat) :
  StableCallbacks.settled r → i < item_count →
  StableCallbacks.state (StableCallbacks.dispatch r (mouseenter i))
  = ToString i.
Proof.
  intros Hr Hi. unfold StableCallbacks.dispatch.
  rewrite StableCallbacks_fire by exact Hr.
  case_decide; [|contradiction].
  destruct (String.eqb_spec (ToString i) (StableCallbacks.state r));
    [congruence | reflexivity].
Qed.

Lemma StableCallbacks_reachable (es : list Event) :
  StableCallbacks.settled (StableCallbacks.run StableCallbacks.mount es).
Proof. apply StableCallbacks_run_settled, StableCallbacks_mount_settled. Qed.

Lemma StableCallbacks_at_most_one (r : StableCallbacks.Root) :
  StableCallbacks.settled r → at_most_one (StableCallbacks.highlighted r).
Proof.
  intros Hr i j Hi Hj.
  apply (StableCallbacks_highlighted _ i Hr) in Hi as [_ Hi].
  apply (StableCallbacks_highlighted _ j Hr) in Hj as [_ Hj].
  apply ToString_inj. congruence.
Qed.

(** The late leave of item 3 does not clear the hover on item 7 here
    either. *)
Lemma StableCallbacks_late_leave (es : list Event) :
  StableCallbacks.state
    (StableCallbacks.run (StableCallbacks.run StableCallbacks.mount es)
                         [mouseenter 3; mouseenter 7; mouseleave 3])
  = ToString 7.
Proof.
  pose proof (StableCallbacks_reachable es) as Hr.
  set (r := StableCallbacks.run StableCallbacks.mount es) in *.
  change (StableCallbacks.run r [mouseenter 3; mouseenter 7; mouseleave 3])
    with (StableCallbacks.dispatch
            (StableCallbacks.dispatch
               (StableCallbacks.dispatch r (mouseenter 3)) (mouseenter 7))
            (mouseleave 3)).
  pose proof (StableCallbacks_dispatch_settled _ (mouseenter 3) Hr) as H3.
  pose proof (StableCallbacks_dispatch_settled _ (mouseenter 7) H3) as H7.
  rewrite StableCallbacks_leave_never_clears by exact H7.
  apply StableCallbacks_after_enter; [exact H3 | unfold item_count; lia].
Qed.

(** But the leave of the hovered item does not clear the hover state:
    after enter 3, leave 3 the state is still the identifier of item 3 and
    item 3 is still tinted. *)
Lemma StableCallbacks_leave_of_hovered_item :
  StableCallbacks.state
    (StableCallbacks.run StableCallbacks.mount [mouseenter 3; mouseleave 3])
  = ToString 3
  ∧ StableCallbacks.highlighted
      (StableCallbacks.run StableCallbacks.mount [mouseenter 3; mouseleave 3])
      3
    = true.
Proof. split; vm_compute; reflexivity. Qed.

(** * The properties of the hover state *)

(** C1. A leave event for an element that is not the hovered one changes
    nothing.  In the React versions: for every identifier and every hover
    state different from it, the handler leaves the state as it is (also
    when the state is the empty string, which stands for none), and so
    does the leave event of an element, at the mounted component as well.
    In the version without React, where the hovered elements are the
    tinted ones: at every point of every sequence of events, leaving an
    element that is not tinted leaves the whole page as it is. *)
Theorem stale_leave_is_noop :
  (∀ id s : string, s ≠ id → Inline.onLeave id s = s)
  ∧ (∀ id s : string, s ≠ id → Extracted.onLeave id s = s)
  ∧ (∀ (n : nat) (id s : string), s ≠ id → Memoized.onLeave n id s = s)
  ∧ (∀ (s : string) (i : nat), s ≠ ToString i →
       React.dispatch Inline.App s (mouseleave i) = s
       ∧ React.dispatch Extracted.App s (mouseleave i) = s)
  ∧ (∀ (es : list Event) (i : nat),
       Memoized.state (Memoized.run Memoized.mount es) ≠ ToString i →
       Memoized.dispatch (Memoized.run Memoized.mount es) (mouseleave i)
       = Memoized.run Memoized.mount es)
  ∧ (∀ (es : list Event) (i : nat),
       StableCallbacks.state (StableCallbacks.run StableCallbacks.mount es)
       ≠ ToString i →
       StableCallbacks.dispatch
         (StableCallbacks.run StableCallbacks.mount es) (mouseleave i)
       = StableCallbacks.run StableCallbacks.mount es)
  ∧ (∀ (es : list Event) (i : nat),
       Vanilla.highlighted (Vanilla.run Vanilla.root es) i = false →
       Vanilla.onLeave i (Vanilla.run Vanilla.root es)
       = Vanilla.run Vanilla.root es).
Proof.
  repeat split.
  - intros id s Hne. rewrite Inline_onLeave. case_decide; congruence.
  - intros id s Hne. rewrite Extracted_onLeave. case_decide; congruence.
  - intros n id s Hne. rewrite Memoized_onLeave. case_decide; congruence.
  - rewrite Inline_dispatch_leave, Inline_onLeave.
    repeat case_decide; congruence.
  - rewrite Extracted_dispatch_leave, Extracted_onLeave.
    repeat case_decide; congruence.
  - intros es i Hne. unfold Memoized.dispatch.
    rewrite Memoized_fire
      by apply Memoized_run_up_to_date, Memoized_mount_up_to_date.
    case_decide; [tauto | reflexivity].
  - intros es i _.
    apply StableCallbacks_leave_never_clears, StableCallbacks_reachable.
  - intros es i Hi. apply Vanilla_leave_untinted; [|exact Hi].
    apply Vanilla_two_colours_run, Vanilla_two_colours_root.
Qed.

Lemma stale_leave_is_noop_witness :
  Inline.onLeave "3" "7" = "7"
  ∧ Extracted.onLeave "3" "" = ""
  ∧ Memoized.onLeave 1 "3" "7" = "7"
  ∧ React.dispatch Inline.App "7" (mouseleave 3) = "7"
  ∧ Memoized.dispatch (Memoized.run Memoized.mount [mouseenter 7])
                      (mouseleave 3)
    = Memoized.run Memoized.mount [mouseenter 7]
  ∧ StableCallbacks.dispatch
      (StableCallbacks.run StableCallbacks.mount [mouseenter 7])
      (mouseleave 3)
    = StableCallbacks.run StableCallbacks.mount [mouseenter 7]
  ∧ Vanilla.onLeave 3 (Vanilla.run Vanilla.root [mouseenter 7])
    = Vanilla.run Vanilla.root [mouseenter 7].
Proof.
  pose proof stale_leave_is_noop as (H1 & H2 & H3 & H4 & H5 & H6 & H7).
  split; [apply (H1 "3" "7"); discriminate|].
  split; [apply (H2 "3" ""); discriminate|].
  split; [apply (H3 1 "3" "7"); discriminate|].
  split; [apply (H4 "7" 3); vm_compute; discriminate|].
  split; [apply (H5 [mouseenter 7] 3); vm_compute; discriminate|].
  split; [apply (H6 [mouseenter 7] 3); vm_compute; discriminate|].
  apply (H7 [mouseenter 7] 3). vm_compute. reflexivity.
Defined.

(** C2, as the code has it.  In the React versions at most one element is
    tinted at every point of every sequence of events from the first
    render.  The page without React keeps one colour per element and no
    common state: there at most one element is tinted at every point of a
    sequence exactly when no enter of an element arrives while another
    element is tinted; the leaves are free, late and repeated ones too,
    and so is a second enter of the tinted element. *)
Theorem at_most_one_highlighted :
  (∀ (es : list Event) (k : nat),
     at_most_one
       (Inline.highlighted (React.run Inline.App React.initial (take k es))))
  ∧ (∀ (es : list Event) (k : nat),
       at_most_one
         (Extracted.highlighted
            (React.run Extracted.App React.initial (take k es))))
  ∧ (∀ (es : list Event) (k : nat),
       at_most_one
         (Memoized.highlighted (Memoized.run Memoized.mount (take k es))))
  ∧ (∀ (es : list Event) (k : nat),
       at_most_one
         (StableCallbacks.highlighted
            (StableCallbacks.run StableCallbacks.mount (take k es))))
  ∧ (∀ es : list Event,
       (∀ k : nat,
          at_most_one
            (Vanilla.highlighted (Vanilla.run Vanilla.root (take k es))))
       ↔ no_overlap None es = true).
Proof.
  split; [|split; [|split; [|split]]].
  - intros es k. apply Inline_at_most_one.
  - intros es k. apply Extracted_at_most_one.
  - intros es k. apply Memoized_at_most_one.
    apply Memoized_run_up_to_date, Memoized_mount_up_to_date.
  - intros es k. apply StableCallbacks_at_most_one, StableCallbacks_reachable.
  - intros es. split.
    + apply Vanilla_at_most_one_no_overlap, Vanilla_tracks_root.
    + intros Hes k.
      destruct (Vanilla_no_overlap_tracks es None Vanilla.root k
                  Vanilla_tracks_root Hes) as [tinted Htinted].
      exact (Vanilla_tracks_at_most_one tinted _ Htinted).
Qed.

Lemma at_most_one_highlighted_witness :
  at_most_one
    (Vanilla.highlighted
       (Vanilla.run Vanilla.root
          (take 5 [mouseenter 3; mouseenter 3; mouseleave 7; mouseleave 3;
                   mouseleave 3; mouseenter 7; mouseleave 3]))).
Proof.
  apply (proj2 (proj2 (proj2 (proj2 (proj2 at_most_one_highlighted)))
                  [mouseenter 3; mouseenter 3; mouseleave 7; mouseleave 3;
                   mouseleave 3; mouseenter 7; mouseleave 3])).
  reflexivity.
Defined.

(** C2, as it is written, fails on the page without React: after the
    pointer events enter 3, enter 7 two elements are tinted. *)
Lemma Vanilla_two_highlighted :
  ¬ at_most_one
      (Vanilla.highlighted
         (Vanilla.run Vanilla.root [mouseenter 3; mouseenter 7])).
Proof.
  intros H. specialize (H 3 7 eq_refl eq_refl). discriminate.
Qed.

(** C3. Wherever it starts, the sequence enter 3, enter 7, leave 3 ends
    with the hover state on item 7: the late leave of item 3 does not clear
    the newer hover.  For the three React versions in the source files;
    the memoized one is started from every state it can reach. *)
Theorem late_leave_keeps_newer_hover :
  (∀ s : string,
     React.run Inline.App s [mouseenter 3; mouseenter 7; mouseleave 3]
     = ToString 7)
  ∧ (∀ s : string,
       React.run Extracted.App s [mouseenter 3; mouseenter 7; mouseleave 3]
       = ToString 7)
  ∧ (∀ es : list Event,
       Memoized.state
         (Memoized.run (Memoized.run Memoized.mount es)
                       [mouseenter 3; mouseenter 7; mouseleave 3])
       = ToString 7).
Proof.
  assert (∀ s : string,
            React.run Extracted.App s
                      [mouseenter 3; mouseenter 7; mouseleave 3]
            = ToString 7) as HE.
  { intros s. unfold React.run. cbn [foldl].
    rewrite !Extracted_after_enter, Extracted_after_leave
      by (unfold item_count; lia).
    case_decide as H; [|reflexivity].
    apply ToString_inj in H. discriminate. }
  split; [|split].
  - intros s. rewrite Inline_run_as_Extracted. apply HE.
  - exact HE.
  - intros es. rewrite Memoized_run_as_Extracted
      by apply Memoized_run_up_to_date, Memoized_mount_up_to_date.
    apply HE.
Qed.

(** C4, as the code has it.  In the React versions, right after the enter
    event of item [i] that item is tinted and no other is.  On the page
    without React, right after the enter event of item [i] that item is
    tinted and every other element has the colour it had before. *)
Theorem enter_highlights_the_item :
  (∀ (s : string) (i j : nat), i < item_count →
     Inline.highlighted (React.dispatch Inline.App s (mouseenter i)) i = true
     ∧ (j ≠ i →
        Inline.highlighted (React.dispatch Inline.App s (mouseenter i)) j
        = false))
  ∧ (∀ (s : string) (i j : nat), i < item_count →
       Extracted.highlighted
         (React.dispatch Extracted.App s (mouseenter i)) i = true
       ∧ (j ≠ i →
          Extracted.highlighted
            (React.dispatch Extracted.App s (mouseenter i)) j
          = false))
  ∧ (∀ (es : list Event) (i j : nat), i < item_count →
       Memoized.highlighted
         (Memoized.dispatch (Memoized.run Memoized.mount es) (mouseenter i)) i
       = true
       ∧ (j ≠ i →
          Memoized.highlighted
            (Memoized.dispatch (Memoized.run Memoized.mount es)
                               (mouseenter i)) j
          = false))
  ∧ (∀ (es : list Event) (i j : nat), i < item_count →
       StableCallbacks.highlighted
         (StableCallbacks.dispatch
            (StableCallbacks.run StableCallbacks.mount es) (mouseenter i)) i
       = true
       ∧ (j ≠ i →
          StableCallbacks.highlighted
            (StableCallbacks.dispatch
               (StableCallbacks.run StableCallbacks.mount es) (mouseenter i))
            j
          = false))
  ∧ (∀ (es : list Event) (i j : nat), i < item_count →
       Vanilla.highlighted
         (Vanilla.onEnter i (Vanilla.run Vanilla.root es)) i = true
       ∧ (j ≠ i →
          Vanilla.highlighted
            (Vanilla.onEnter i (Vanilla.run Vanilla.root es)) j
          = Vanilla.highlighted (Vanilla.run Vanilla.root es) j)).
Proof.
  split; [|split; [|split; [|split]]].
  - intros s i j Hi. rewrite Inline_as_Extracted.
    rewrite Extracted_after_enter by exact Hi. split.
    + apply Inline_highlighted. auto.
    + intros Hne. apply not_true_is_false. rewrite Inline_highlighted.
      intros [_ H]. apply ToString_inj in H. congruence.
  - intros s i j Hi. rewrite Extracted_after_enter by exact Hi. split.
    + apply Extracted_highlighted. auto.
    + intros Hne. apply not_true_is_false. rewrite Extracted_highlighted.
      intros [_ H]. apply ToString_inj in H. congruence.
  - intros es i j Hi.
    pose proof (Memoized_run_up_to_date _ es Memoized_mount_up_to_date) as Hr.
    pose proof (Memoized_dispatch_up_to_date _ (mouseenter i) Hr) as Hr'.
    pose proof (Memoized_as_Extracted _ (mouseenter i) Hr) as Hs.
    rewrite Extracted_after_enter in Hs by exact Hi. split.
    + apply (Memoized_highlighted _ _ Hr'). auto.
    + intros Hne. apply not_true_is_false.
      rewrite (Memoized_highlighted _ _ Hr'). rewrite Hs.
      intros [_ H]. apply ToString_inj in H. congruence.
  - intros es i j Hi.
    pose proof (StableCallbacks_reachable es) as Hr.
    pose proof (StableCallbacks_dispatch_settled _ (mouseenter i) Hr) as Hr'.
    pose proof (StableCallbacks_after_enter _ i Hr Hi) as Hs. split.
    + apply (StableCallbacks_highlighted _ _ Hr'). auto.
    + intros Hne. apply not_true_is_false.
      rewrite (StableCallbacks_highlighted _ _ Hr'). rewrite Hs.
      intros [_ H]. apply ToString_inj in H. congruence.
  - intros es i j Hi. split.
    + apply Vanilla_highlighted_enter.
      rewrite Vanilla_length_run. unfold Vanilla.root.
      rewrite length_replicate. exact Hi.
    + intros Hne. unfold Vanilla.onEnter.
      apply Vanilla_highlighted_other. congruence.
Qed.

Lemma enter_highlights_the_item_witness :
  (Inline.highlighted (React.dispatch Inline.App "3" (mouseenter 7)) 7 = true
   ∧ Inline.highlighted (React.dispatch Inline.App "3" (mouseenter 7)) 3
     = false)
  ∧ (Memoized.highlighted
       (Memoized.dispatch (Memoized.run Memoized.mount [mouseenter 3])
                          (mouseenter 7)) 7
     = true
     ∧ Memoized.highlighted
         (Memoized.dispatch (Memoized.run Memoized.mount [mouseenter 3])
                            (mouseenter 7)) 3
       = false)
  ∧ (Vanilla.highlighted
       (Vanilla.onEnter 7 (Vanilla.run Vanilla.root [mouseenter 3])) 7
     = true
     ∧ Vanilla.highlighted
         (Vanilla.onEnter 7 (Vanilla.run Vanilla.root [mouseenter 3])) 5
       = Vanilla.highlighted (Vanilla.run Vanilla.root [mouseenter 3]) 5).
Proof.
  pose proof enter_highlights_the_item as (H1 & _ & H3 & _ & H5).
  assert (7 < item_count) as H7 by (unfold item_count; lia).
  assert (3 ≠ 7) as H37 by lia.
  assert (5 ≠ 7) as H57 by lia.
  split; [|split].
  - destruct (H1 "3" 7 3 H7) as [Ha Hb]. split; [exact Ha | exact (Hb H37)].
  - destruct (H3 [mouseenter 3] 7 3 H7) as [Ha Hb].
    split; [exact Ha | exact (Hb H37)].
  - destruct (H5 [mouseenter 3] 7 5 H7) as [Ha Hb].
    split; [exact Ha | exact (Hb H57)].
Defined.

(** C4, as it is written, fails on the page without React: after enter 3
    the enter event of item 7 tints item 7 and leaves item 3 tinted. *)
Lemma Vanilla_enter_keeps_other_tinted :
  3 ≠ 7
  ∧ Vanilla.highlighted
      (Vanilla.onEnter 7 (Vanilla.run Vanilla.root [mouseenter 3])) 7
    = true
  ∧ Vanilla.highlighted
      (Vanilla.onEnter 7 (Vanilla.run Vanilla.root [mouseenter 3])) 3
    ≠ false.
Proof. repeat split; [lia | discriminate]. Qed.

(** C5. Leaving the hovered item clears the hover state, and afterwards no
    item is tinted.  In the three React versions of the source files: for
    every identifier the handler called on the state equal to it returns
    the empty string; for every item [i], the leave event of element [i]
    in the state [String(i)] does so, and the render that follows tints
    nothing. *)
Theorem leave_of_hovered_item_clears :
  (∀ id : string,
     Inline.onLeave id id = "" ∧ Extracted.onLeave id id = ""
     ∧ ∀ n, Memoized.onLeave n id id = "")
  ∧ (∀ j : nat,
       Inline.highlighted "" j = false ∧ Extracted.highlighted "" j = false)
  ∧ (∀ (s : string) (i : nat), i < item_count → s = ToString i →
       React.dispatch Inline.App s (mouseleave i) = ""
       ∧ React.dispatch Extracted.App s (mouseleave i) = "")
  ∧ (∀ (es : list Event) (i : nat), i < item_count →
       Memoized.state (Memoized.run Memoized.mount es) = ToString i →
       Memoized.state
         (Memoized.dispatch (Memoized.run Memoized.mount es) (mouseleave i))
       = ""
       ∧ ∀ j : nat,
           Memoized.highlighted
             (Memoized.dispatch (Memoized.run Memoized.mount es)
                                (mouseleave i)) j
           = false).
Proof.
  split; [|split; [|split]].
  - intros id. repeat split; intros;
      rewrite ?Inline_onLeave, ?Extracted_onLeave, ?Memoized_onLeave;
      case_decide; congruence.
  - intros j. split;
      [apply Inline_none_highlighted | apply Extracted_none_highlighted].
  - intros s i Hi ->. rewrite Inline_as_Extracted.
    rewrite Extracted_after_leave by exact Hi.
    case_decide; [auto | congruence].
  - intros es i Hi Hs.
    pose proof (Memoized_run_up_to_date _ es Memoized_mount_up_to_date) as Hr.
    assert (Memoized.state
              (Memoized.dispatch (Memoized.run Memoized.mount es)
                                 (mouseleave i)) = "") as H0.
    { rewrite Memoized_as_Extracted by exact Hr.
      rewrite Extracted_after_leave by exact Hi.
      case_decide; [reflexivity | congruence]. }
    split; [exact H0|]. intros j.
    apply Memoized_none_highlighted; [|exact H0].
    apply Memoized_dispatch_up_to_date, Hr.
Qed.

Lemma leave_of_hovered_item_clears_witness :
  React.dispatch Inline.App "3" (mouseleave 3) = ""
  ∧ Memoized.state
      (Memoized.dispatch (Memoized.run Memoized.mount [mouseenter 3])
                         (mouseleave 3))
    = "".
Proof.
  pose proof leave_of_hovered_item_clears as (_ & _ & H3 & H4).
  split.
  - apply (H3 "3" 3); [unfold item_count; lia | reflexivity].
  - apply (H4 [mouseenter 3] 3); [unfold item_count; lia | reflexivity].
Defined.

(** C6. Entering sets the hover state to the identifier, whatever the state
    was, and entering twice is entering once: for the handlers on every
    pair of strings, and for the enter event of every element. *)
Theorem enter_sets_and_is_idempotent :
  (∀ id s : string,
     Inline.onEnter id s = id
     ∧ Inline.onEnter id (Inline.onEnter id s) = Inline.onEnter id s)
  ∧ (∀ id s : string,
       Extracted.onEnter id s = id
       ∧ Extracted.onEnter id (Extracted.onEnter id s)
         = Extracted.onEnter id s)
  ∧ (∀ (n n' : nat) (id s : string),
       Memoized.onEnter n id s = id
       ∧ Memoized.onEnter n' id (Memoized.onEnter n id s)
         = Memoized.onEnter n id s)
  ∧ (∀ (s : string) (i : nat),
       React.dispatch Extracted.App
         (React.dispatch Extracted.App s (mouseenter i)) (mouseenter i)
       = React.dispatch Extracted.App s (mouseenter i)).
Proof.
  repeat split.
  intros s i. rewrite !Extracted_dispatch_enter.
  case_decide; reflexivity.
Qed.

(** C7. The guard written with [==] and the guard written with [===] are
    the same function of the identifier and the hover state, both strings:
    the handlers ask for the same update, the operations return the same
    state, and from the first render on the two versions go through the
    same hover states under every sequence of events. *)
Theorem loose_and_strict_guards_agree :
  (∀ (n : nat) (id s : string),
     Extracted.handleMouseLeave s id
     = Memoized.call (Memoized.handleMouseLeave n s) id
     ∧ Inline.onMouseLeave s id
       = Memoized.call (Memoized.handleMouseLeave n s) id
     ∧ Extracted.onLeave id s = Memoized.onLeave n id s)
  ∧ (∀ es : list Event,
       React.run Extracted.App React.initial es
       = Memoized.state (Memoized.run Memoized.mount es)).
Proof.
  split.
  - intros n id s. repeat split.
  - intros es. symmetry.
    apply (Memoized_run_as_Extracted _ es Memoized_mount_up_to_date).
Qed.

Lemma Runtime_App_lookup (strict : bool) (s : string) (i : nat) :
  Runtime.App strict s !! i
  = if decide (i < item_count)
    then Some (Runtime.Element
                 {| Runtime.id := ToString i;
                    Runtime.hoveredElementId := s;
                    Runtime.onMouseEnter := fst (Runtime.handlers strict s);
                    Runtime.onMouseLeave := snd (Runtime.handlers strict s) |})
    else None.
Proof.
  unfold Runtime.App. rewrite list_lookup_fmap, lookup_seq_items.
  case_decide; reflexivity.
Qed.

Lemma Runtime_Call_enter (strict : bool) (id s : string) :
  Runtime.Call (fst (Runtime.handlers strict s)) id
  = Runtime.Normal (Some id).
Proof. reflexivity. Qed.

Lemma Runtime_Call_leave (strict : bool) (id s : string) :
  Runtime.Call (snd (Runtime.handlers strict s)) id
  = Runtime.Normal (if decide (s = id) then Some "" else None).
Proof.
  cbn. destruct strict; cbn;
    destruct (String.eqb_spec id s); case_decide;
    (reflexivity || congruence).
Qed.

Lemma Runtime_dispatch (strict : bool) (s : string) (e : Event) :
  Runtime.dispatch (Runtime.App strict) s e
  = Runtime.Normal (React.dispatch Extracted.App s e).
Proof.
  unfold Runtime.dispatch, Runtime.fire.
  destruct e as [i|i]; rewrite Runtime_App_lookup.
  - rewrite Extracted_dispatch_enter. case_decide; [|reflexivity].
    cbn [Runtime.Element Runtime.div_onMouseEnter Runtime.onMouseEnter
         Runtime.id].
    rewrite Runtime_Call_enter. reflexivity.
  - rewrite Extracted_dispatch_leave, Extracted_onLeave.
    case_decide; [|reflexivity].
    cbn [Runtime.Element Runtime.div_onMouseLeave Runtime.onMouseLeave
         Runtime.id].
    rewrite Runtime_Call_leave. case_decide; reflexivity.
Qed.

Lemma Runtime_Inline_dispatch (s : string) (e : Event) :
  Runtime.dispatch Runtime.InlineApp s e
  = Runtime.Normal (React.dispatch Inline.App s e).
Proof.
  unfold Runtime.dispatch, Runtime.fire, Runtime.InlineApp.
  destruct e as [i|i]; rewrite list_lookup_fmap, lookup_seq_items.
  - rewrite Inline_dispatch_enter. case_decide; reflexivity.
  - rewrite Inline_dispatch_leave. case_decide; [|reflexivity].
    cbn. unfold Inline.onLeave, Inline.onMouseLeave. cbn.
    destruct (String.eqb (ToString i) s); reflexivity.
Qed.

(** A call of what is no function does fail: of a handler whose setter
    variable holds none, and of an [Element] that was given no handler. *)
Lemma Runtime_calls_can_fail (id s : string) :
  Runtime.Call Runtime.Undefined id = Runtime.Throw Runtime.TypeError
  ∧ Runtime.Call (Runtime.Text s) id = Runtime.Throw Runtime.TypeError
  ∧ Runtime.Call (Runtime.HandleMouseEnter Runtime.Undefined) id
    = Runtime.Throw Runtime.TypeError
  ∧ Runtime.Call (Runtime.HandleMouseLeave false id Runtime.Undefined) id
    = Runtime.Throw Runtime.TypeError
  ∧ Runtime.div_onMouseLeave
      (Runtime.Element
         {| Runtime.id := id; Runtime.hoveredElementId := s;
            Runtime.onMouseEnter := fst (Runtime.handlers false s);
            Runtime.onMouseLeave := Runtime.Undefined |}) ()
    = Runtime.Throw Runtime.TypeError.
Proof.
  repeat split. cbn. rewrite String.eqb_refl. reflexivity.
Qed.

(** C8. No operation fails.  With every call written as the run time
    performs it, where calling what is no function throws, the handlers
    [App] builds complete normally on every identifier, those of no
    element and the empty string among them, and every hover state:
    entering calls the setter with the identifier; leaving calls it with
    the empty string when the identifier is the hover state and calls
    nothing otherwise, which is a no-op and not a failure.  No sequence of
    events makes a version throw, and each ends in the state the
    operations compute. *)
Theorem no_operation_fails :
  (∀ (strict : bool) (id s : string),
     Runtime.Call (fst (Runtime.handlers strict s)) id
     = Runtime.Normal (Some id)
     ∧ Runtime.Call (snd (Runtime.handlers strict s)) id
       = Runtime.Normal (if decide (s = id) then Some "" else None))
  ∧ (∀ (strict : bool) (s : string) (es : list Event),
       Runtime.run (Runtime.App strict) s es
       = Runtime.Normal (React.run Extracted.App s es))
  ∧ (∀ (s : string) (es : list Event),
       Runtime.run Runtime.InlineApp s es
       = Runtime.Normal (React.run Inline.App s es)).
Proof.
  split; [|split].
  - intros strict id s.
    split; [apply Runtime_Call_enter | apply Runtime_Call_leave].
  - intros strict s es. revert s.
    induction es as [|e es IH]; intros s; [reflexivity|].
    cbn [Runtime.run]. rewrite Runtime_dispatch. apply IH.
  - intros s es. revert s.
    induction es as [|e es IH]; intros s; [reflexivity|].
    cbn [Runtime.run]. rewrite Runtime_Inline_dispatch. apply IH.
Qed.

(** C9. The state that stands for none is the empty string, the state of
    the first render.  The identifier of every element is [String(i)], a
    decimal numeral, one digit at least, so it is never the empty string;
    and while the hover state is the empty string no element is tinted. *)
Theorem none_is_not_an_identifier :
  React.initial = ""
  ∧ Memoized.state Memoized.mount = ""
  ∧ (∀ (n : nat) (s : string),
       Memoized.id <$> Memoized.App n s = ToString <$> seq 0 item_count)
  ∧ (∀ i : nat,
       decimal_numeral (ToString i) = true ∧ ToString i ≠ React.initial)
  ∧ (∀ j : nat,
       Inline.highlighted React.initial j = false
       ∧ Extracted.highlighted React.initial j = false
       ∧ Memoized.highlighted Memoized.mount j = false)
  ∧ (∀ (es : list Event) (j : nat),
       Memoized.state (Memoized.run Memoized.mount es) = React.initial →
       Memoized.highlighted (Memoized.run Memoized.mount es) j = false).
Proof.
  split; [reflexivity|]. split; [reflexivity|].
  split; [|split; [|split]].
  - intros n s. unfold Memoized.App. rewrite <- list_fmap_compose.
    apply list_fmap_ext. reflexivity.
  - intros i. split; [apply ToString_decimal | apply ToString_nonempty].
  - intros j. split; [apply Inline_none_highlighted|].
    split; [apply Extracted_none_highlighted|].
    apply Memoized_none_highlighted;
      [apply Memoized_mount_up_to_date | reflexivity].
  - intros es j Hs. apply Memoized_none_highlighted; [|exact Hs].
    apply Memoized_run_up_to_date, Memoized_mount_up_to_date.
Qed.

Lemma none_is_not_an_identifier_witness :
  Memoized.highlighted
    (Memoized.run Memoized.mount [mouseenter 3; mouseleave 3]) 3
  = false.
Proof.
  apply (proj2 (proj2 (proj2 (proj2 (proj2 none_is_not_an_identifier))))
           [mouseenter 3; mouseleave 3] 3).
  reflexivity.
Defined.

(** C10. Leaving twice is leaving once: the first call clears the state or
    does nothing, and the second finds nothing to do. *)
Theorem leave_is_idempotent :
  (∀ id s : string,
     Inline.onLeave id (Inline.onLeave id s) = Inline.onLeave id s)
  ∧ (∀ id s : string,
       Extracted.onLeave id (Extracted.onLeave id s) = Extracted.onLeave id s)
  ∧ (∀ (n n' : nat) (id s : string),
       Memoized.onLeave n' id (Memoized.onLeave n id s)
       = Memoized.onLeave n id s)
  ∧ (∀ (s : string) (i : nat),
       React.dispatch Extracted.App
         (React.dispatch Extracted.App s (mouseleave i)) (mouseleave i)
       = React.dispatch Extracted.App s (mouseleave i)).
Proof.
  split; [|split; [|split]].
  - intros id s. rewrite !Inline_onLeave. repeat case_decide; congruence.
  - intros id s. rewrite !Extracted_onLeave. repeat case_decide; congruence.
  - intros n n' id s. rewrite !Memoized_onLeave.
    repeat case_decide; congruence.
  - intros s i. rewrite !Extracted_dispatch_leave, !Extracted_onLeave.
    repeat case_decide; congruence.
Qed.

(** * Further properties of the code *)

(** ** Lists *)

Lemma filter_none {A} (P : A → Prop) `{∀ x, Decision (P x)} (l : list A) :
  (∀ x, x ∈ l → ¬ P x) → filter P l = [].
Proof.
  induction l as [|x l IH]; intros Hl; [reflexivity|].
  rewrite filter_cons_False by (apply Hl; left).
  apply IH. intros y Hy. apply Hl. right. exact Hy.
Qed.

Lemma filter_all {A} (P : A → Prop) `{∀ x, Decision (P x)} (l : list A) :
  (∀ x, x ∈ l → P x) → filter P l = l.
Proof.
  induction l as [|x l IH]; intros Hl; [reflexivity|].
  rewrite filter_cons_True by (apply Hl; left).
  f_equal. apply IH. intros y Hy. apply Hl. right. exact Hy.
Qed.

Lemma filter_seq_only (P : nat → Prop) `{∀ x, Decision (P x)} (i n : nat) :
  i < n → (∀ j, j < n → P j ↔ j = i) → filter P (seq 0 n) = [i].
Proof.
  intros Hi HP.
  replace n with (i + S (n - S i)) at 1 by lia.
  rewrite seq_app, filter_app. cbn [seq].
  rewrite filter_cons_True by (apply HP; lia).
  rewrite !filter_none; [reflexivity| |].
  - intros j Hj. apply elem_of_seq in Hj. rewrite HP by lia. lia.
  - intros j Hj. apply elem_of_seq in Hj. rewrite HP by lia. lia.
Qed.

(** ** The hover state stays in the data model *)

Lemma Extracted_dispatch_none_or_item (s : string) (e : Event) :
  none_or_item s → none_or_item (React.dispatch Extracted.App s e).
Proof.
  intros Hs. destruct e as [i|i].
  - rewrite Extracted_dispatch_enter. case_decide; [|exact Hs].
    right. exists i. split; [assumption | reflexivity].
  - rewrite Extracted_dispatch_leave, Extracted_onLeave.
    repeat case_decide; try exact Hs. left. reflexivity.
Qed.

Lemma Extracted_run_none_or_item (s : string) (es : list Event) :
  none_or_item s → none_or_item (React.run Extracted.App s es).
Proof.
  revert s. induction es as [|e es IH]; intros s Hs; [exact Hs|].
  unfold React.run in *. cbn [foldl].
  apply IH, Extracted_dispatch_none_or_item, Hs.
Qed.

(** X1. Whatever the events, the hover state of the three React versions
    of the source files is the empty string or the identifier of one of the
    500 elements: no handler ever stores anything else. *)
Theorem hover_state_is_none_or_an_item (es : list Event) :
  none_or_item (React.run Inline.App React.initial es)
  ∧ none_or_item (React.run Extracted.App React.initial es)
  ∧ none_or_item (Memoized.state (Memoized.run Memoized.mount es)).
Proof.
  assert (none_or_item (React.run Extracted.App React.initial es)) as HE.
  { apply Extracted_run_none_or_item. left. reflexivity. }
  split; [|split].
  - rewrite Inline_run_as_Extracted. exact HE.
  - exact HE.
  - rewrite (Memoized_run_as_Extracted _ es Memoized_mount_up_to_date).
    exact HE.
Qed.

(** ** What a render shows *)

(** X2. A render tints exactly one element when the hover state is the
    identifier of an element, that element, and none when it is anything
    else. *)
Theorem render_tints_exactly_the_hovered_item :
  (∀ i : nat, i < item_count → tinted (ToString i) = [i])
  ∧ (∀ s : string,
       (∀ i : nat, i < item_count → s ≠ ToString i) → tinted s = []).
Proof.
  split.
  - intros i Hi. unfold tinted. apply filter_seq_only; [exact Hi|].
    intros j Hj. rewrite Extracted_highlighted. split.
    + intros [_ H]. symmetry. apply ToString_inj, H.
    + intros ->. auto.
  - intros s Hs. unfold tinted. apply filter_none.
    intros j _. rewrite Extracted_highlighted.
    intros [Hj H]. exact (Hs j Hj H).
Qed.

Lemma render_tints_exactly_the_hovered_item_witness :
  tinted (ToString 7) = [7] ∧ tinted "" = [] ∧ tinted "500" = [].
Proof.
  pose proof render_tints_exactly_the_hovered_item as [H1 H2].
  split; [apply (H1 7); unfold item_count; lia|].
  split.
  - apply (H2 ""). intros i _ H. symmetry in H.
    exact (ToString_nonempty i H).
  - apply (H2 "500"). intros i Hi H.
    change "500" with (ToString 500) in H. apply ToString_inj in H.
    unfold item_count in Hi. lia.
Defined.

(** X3. Pulling the [div] out into the [Element] component changes
    nothing: from every hover state the first version and the version with
    [Element] render the same list, styles and handlers alike, and so they
    go through the same hover states under every sequence of events. *)
Theorem extraction_preserves_the_render (s : string) (es : list Event) :
  Inline.App s = Extracted.App s
  ∧ React.run Inline.App s es = React.run Extracted.App s es.
Proof.
  split.
  - unfold Inline.App, Extracted.App. apply list_fmap_ext.
    intros _ i _. reflexivity.
  - apply Inline_run_as_Extracted.
Qed.

(** X4. The comparison given to [React.memo] in the source file never
    changes what is shown: after every sequence of events the screen of
    the memoized version is, element by element and handler by handler,
    the render of the version without [React.memo] from its own state. *)
Theorem memoized_screen_is_the_plain_render (es : list Event) :
  Memoized.output <$> Memoized.shown (Memoized.run Memoized.mount es)
  = Extracted.App (React.run Extracted.App React.initial es).
Proof.
  pose proof (Memoized_run_up_to_date _ es Memoized_mount_up_to_date)
    as (n & _ & Hshown).
  pose proof (Memoized_run_as_Extracted _ es Memoized_mount_up_to_date) as Hs.
  change (Memoized.state Memoized.mount) with React.initial in Hs.
  rewrite <- Hs, Hshown. unfold Memoized.App, Extracted.App.
  rewrite <- !list_fmap_compose. apply list_fmap_ext.
  intros _ i _. reflexivity.
Qed.

(** ** What the comparison given to [React.memo] lets through *)

(** X5. When the comparison allows React to skip a child, the child it
    keeps has the identifier and the style the new props would give: a
    skipped child never shows the wrong colour. *)
Theorem skipped_child_shows_the_same
    (prevProps nextProps : Memoized.ElementProps) :
  Memoized.propsAreEqual prevProps nextProps = true →
  Memoized.id prevProps = Memoized.id nextProps
  ∧ React.style (Memoized.Element prevProps)
    = React.style (Memoized.Element nextProps).
Proof.
  unfold Memoized.propsAreEqual, Memoized.isEqual. cbn [IsStrictlyEqual].
  destruct (String.eqb_spec (Memoized.hoveredElementId prevProps)
                            (Memoized.id nextProps)) as [|Hold];
    [discriminate|].
  destruct (String.eqb_spec (Memoized.hoveredElementId nextProps)
                            (Memoized.id nextProps)) as [|Hnew];
    [discriminate|].
  destruct (String.eqb_spec (Memoized.id prevProps) (Memoized.id nextProps))
    as [Hid|]; [|discriminate].
  intros _. split; [exact Hid|].
  unfold Memoized.Element. cbn [React.style IsStrictlyEqual]. rewrite Hid.
  apply String.eqb_neq in Hold, Hnew. rewrite Hold, Hnew. reflexivity.
Qed.

Lemma skipped_child_shows_the_same_witness :
  React.style
    (Memoized.Element
       {| Memoized.id := "3"; Memoized.hoveredElementId := "5";
          Memoized.onMouseEnter := Memoized.handleMouseEnter 0;
          Memoized.onMouseLeave := Memoized.handleMouseLeave 0 "" |})
  = React.style
      (Memoized.Element
         {| Memoized.id := "3"; Memoized.hoveredElementId := "7";
            Memoized.onMouseEnter := Memoized.handleMouseEnter 0;
            Memoized.onMouseLeave := Memoized.handleMouseLeave 0 "" |}).
Proof.
  apply skipped_child_shows_the_same. reflexivity.
Defined.

Lemma Memoized_App_length (n : nat) (s : string) :
  length (Memoized.App n s) = item_count.
Proof. unfold Memoized.App. rewrite length_fmap. apply length_seq. Qed.

Lemma Memoized_compare_lookup (n n' : nat) (s s' : string) (i : nat) :
  n ≠ n' → i < item_count →
  zip_with (λ m p, Memoized.propsAreEqual (Memoized.memoizedProps m) p)
           (Memoized.render_child <$> Memoized.App n s) (Memoized.App n' s')
    !! i
  = Some false.
Proof.
  intros Hn Hi. rewrite lookup_zip_with. unfold Memoized.App.
  rewrite !list_lookup_fmap, lookup_seq_items.
  case_decide; [|contradiction]. cbn [fmap option_fmap option_map mbind
                                      option_bind].
  rewrite propsAreEqual_other_render; [reflexivity|].
  cbn [Memoized.memoizedProps Memoized.render_child Memoized.onMouseEnter
       Memoized.handleMouseEnter Memoized.ref].
  lia.
Qed.

(** X6. In the memoized version of the source file every render of [App]
    runs all 500 children again, whatever the old and the new hover state:
    the two handlers are new functions at every render and the comparison
    finds them different. *)
Theorem memoized_renders_every_child (es : list Event) (s : string) :
  rendered_again
    (Memoized.shown (Memoized.run Memoized.mount es))
    (Memoized.App (Memoized.renders (Memoized.run Memoized.mount es)) s)
  = seq 0 item_count.
Proof.
  pose proof (Memoized_run_up_to_date _ es Memoized_mount_up_to_date)
    as (n & Hn & Hshown).
  unfold rendered_again. rewrite Memoized_App_length, Hshown.
  apply filter_all. intros i Hi. apply elem_of_seq in Hi.
  apply Memoized_compare_lookup; lia.
Qed.

(** ** The listing with [useCallback]: what runs again, what is shown *)

Lemma StableCallbacks_App_length (n : nat)
    (stored : option Memoized.Callback * option Memoized.Callback)
    (s : string) :
  length (StableCallbacks.App n stored s) = item_count.
Proof. unfold StableCallbacks.App. rewrite length_fmap. apply length_seq. Qed.

Lemma StableCallbacks_compare (r : StableCallbacks.Root) (n : nat)
    (s : string) (i : nat) :
  StableCallbacks.settled r → i < item_count →
  zip_with (λ m p, Memoized.propsAreEqual (Memoized.memoizedProps m) p)
           (StableCallbacks.shown r)
           (StableCallbacks.App n (StableCallbacks.hooks r) s) !! i
  = Some (negb ((StableCallbacks.state r === ToString i)
                || (s === ToString i))).
Proof.
  intros (Hhooks & Hlen & Hshown) Hi.
  rewrite lookup_zip_with, Hhooks, StableCallbacks_App_lookup.
  destruct (lookup_lt_is_Some_2 (StableCallbacks.shown r) i) as [m Hm];
    [lia|].
  destruct (Hshown i m Hm) as (_ & Hid & Henter & Hleave & Hflag).
  rewrite Hm. case_decide; [|contradiction].
  cbn [mbind option_bind]. f_equal.
  unfold Memoized.propsAreEqual, Memoized.isEqual.
  cbn [Memoized.hoveredElementId Memoized.id Memoized.onMouseEnter
       Memoized.onMouseLeave].
  rewrite Hflag, Hid, Henter, Hleave.
  destruct (StableCallbacks.state r === ToString i); [reflexivity|].
  destruct (s === ToString i); [reflexivity|].
  cbn. rewrite String.eqb_refl. reflexivity.
Qed.

(** X7. In the listing with [useCallback] a render of [App] runs again the
    child whose identifier is the old hover state and the child whose
    identifier is the new one, and no other: two children at most out of
    500. *)
Theorem stable_callbacks_render_the_two_affected (es : list Event)
    (s : string) :
  (∀ i : nat,
     i ∈ rendered_again
           (StableCallbacks.shown
              (StableCallbacks.run StableCallbacks.mount es))
           (StableCallbacks.App
              (StableCallbacks.renders
                 (StableCallbacks.run StableCallbacks.mount es))
              (StableCallbacks.hooks
                 (StableCallbacks.run StableCallbacks.mount es)) s)
     ↔ i < item_count
       ∧ (StableCallbacks.state
            (StableCallbacks.run StableCallbacks.mount es) = ToString i
          ∨ s = ToString i))
  ∧ (length
       (rendered_again
          (StableCallbacks.shown
             (StableCallbacks.run StableCallbacks.mount es))
          (StableCallbacks.App
             (StableCallbacks.renders
                (StableCallbacks.run StableCallbacks.mount es))
             (StableCallbacks.hooks
                (StableCallbacks.run StableCallbacks.mount es)) s))
     ≤ 2)%nat.
Proof.
  pose proof (StableCallbacks_reachable es) as Hr.
  set (r := StableCallbacks.run StableCallbacks.mount es) in *.
  assert (∀ i : nat,
            i ∈ rendered_again (StableCallbacks.shown r)
                  (StableCallbacks.App (StableCallbacks.renders r)
                                       (StableCallbacks.hooks r) s)
            ↔ i < item_count
              ∧ (StableCallbacks.state r = ToString i ∨ s = ToString i))
    as Hmem.
  { intros i. unfold rendered_again.
    rewrite list_elem_of_filter, StableCallbacks_App_length, elem_of_seq.
    split.
    - intros [Hcmp [_ Hi]]. cbn in Hi. split; [exact Hi|].
      rewrite StableCallbacks_compare in Hcmp by assumption.
      injection Hcmp as Hcmp. apply negb_false_iff, orb_true_iff in Hcmp.
      destruct Hcmp as [H|H]; apply String.eqb_eq in H; auto.
    - intros [Hi Hs]. split; [|lia].
      rewrite StableCallbacks_compare by assumption. f_equal.
      apply negb_false_iff, orb_true_iff.
      destruct Hs as [H|H]; [left | right]; apply String.eqb_eq, H. }
  split; [exact Hmem|].
  assert (Inj (=) (=) ToString) as Hinj by (intros ? ?; apply ToString_inj).
  rewrite <- (length_fmap ToString).
  change 2 with (length [StableCallbacks.state r; s]).
  apply submseteq_length, NoDup_submseteq.
  - apply NoDup_fmap_2; [exact Hinj|].
    apply NoDup_filter, NoDup_seq.
  - intros x Hx. apply list_elem_of_fmap in Hx as (i & -> & Hi).
    apply Hmem in Hi as [_ [<-|<-]]; [left | right; left].
Qed.

(** X8. For all the children it skips, the listing with [useCallback]
    shows after every sequence of events the styles that the version
    without [React.memo] renders from the same hover state. *)
Theorem stable_callbacks_show_the_plain_styles (es : list Event) :
  (λ m, React.style (Memoized.output m))
    <$> StableCallbacks.shown (StableCallbacks.run StableCallbacks.mount es)
  = React.style
      <$> Extracted.App
            (StableCallbacks.state
               (StableCallbacks.run StableCallbacks.mount es)).
Proof.
  pose proof (StableCallbacks_reachable es) as (_ & Hlen & Hshown).
  set (r := StableCallbacks.run StableCallbacks.mount es) in *.
  apply list_eq. intros i.
  rewrite !list_lookup_fmap, Extracted_lookup.
  destruct (StableCallbacks.shown r !! i) as [m|] eqn:Hm.
  - pose proof (lookup_lt_Some _ _ _ Hm) as Hi. rewrite Hlen in Hi.
    destruct (Hshown i m Hm) as (Hout & Hid & _ & _ & Hflag).
    case_decide; [|contradiction].
    cbn [fmap option_fmap option_map]. f_equal.
    rewrite Hout. unfold Memoized.Element, Extracted.Element.
    cbn [React.style Extracted.hoveredElementId Extracted.id].
    rewrite Hid, Hflag. reflexivity.
  - apply lookup_ge_None_1 in Hm. rewrite Hlen in Hm.
    case_decide; [lia | reflexivity].
Qed.

Lemma StableCallbacks_enter_nothing (r : StableCallbacks.Root) (i : nat) :
  StableCallbacks.settled r → ¬ i < item_count →
  StableCallbacks.dispatch r (mouseenter i) = r.
Proof.
  intros Hr Hi. unfold StableCallbacks.dispatch.
  rewrite StableCallbacks_fire by exact Hr.
  case_decide; [contradiction | reflexivity].
Qed.

Lemma StableCallbacks_state_entered_last (es : list Event) :
  ∀ (r : StableCallbacks.Root) (entered : option nat),
    StableCallbacks.settled r →
    StableCallbacks.state r = from_option ToString "" entered →
    StableCallbacks.state (StableCallbacks.run r es)
    = from_option ToString "" (entered_last entered es).
Proof.
  induction es as [|e es IH]; intros r entered Hr Hs; [exact Hs|].
  unfold StableCallbacks.run in *. cbn [foldl entered_last].
  destruct e as [i|i].
  - apply IH; [apply StableCallbacks_dispatch_settled, Hr|].
    case_decide as Hi.
    + apply StableCallbacks_after_enter; assumption.
    + rewrite StableCallbacks_enter_nothing by assumption. exact Hs.
  - rewrite StableCallbacks_leave_never_clears by exact Hr.
    apply IH; assumption.
Qed.

(** X9. In the listing with [useCallback] the hover state after any
    sequence of events is the identifier of the element entered last, and
    the empty string only while no element has been entered: the leave
    events have no effect on it, because the leave handler kept by
    [useCallback] compares with the hover state of the first render. *)
Theorem stable_callbacks_state_is_the_last_entered (es : list Event) :
  StableCallbacks.state (StableCallbacks.run StableCallbacks.mount es)
  = from_option ToString "" (entered_last None es).
Proof.
  apply StableCallbacks_state_entered_last;
    [apply StableCallbacks_mount_settled | reflexivity].
Qed.

(** ** The page without React, element by element *)

(** X10. On the page without React the events of two different elements
    commute: each listener touches its own element only. *)
Theorem vanilla_events_of_different_elements_commute
    (dom : list Vanilla.HTMLDivElement) (e1 e2 : Event) :
  target e1 ≠ target e2 →
  Vanilla.dispatch (Vanilla.dispatch dom e1) e2
  = Vanilla.dispatch (Vanilla.dispatch dom e2) e1.
Proof.
  intros Hne. destruct e1 as [i|i], e2 as [j|j]; cbn in *;
    apply list_alter_alter_ne; congruence.
Qed.

Lemma vanilla_events_of_different_elements_commute_witness :
  Vanilla.dispatch (Vanilla.dispatch Vanilla.root (mouseenter 3))
                   (mouseleave 7)
  = Vanilla.dispatch (Vanilla.dispatch Vanilla.root (mouseleave 7))
                     (mouseenter 3).
Proof.
  apply vanilla_events_of_different_elements_commute. cbn. lia.
Defined.

(** X11. On the page without React, of two events of one element the
    later decides: the page after both is the page after the second
    alone. *)
Theorem vanilla_later_event_decides
    (dom : list Vanilla.HTMLDivElement) (e1 e2 : Event) :
  target e1 = target e2 →
  Vanilla.dispatch (Vanilla.dispatch dom e1) e2 = Vanilla.dispatch dom e2.
Proof.
  intros Heq. destruct e1 as [i|i], e2 as [j|j]; cbn in *; subst;
    rewrite list_alter_alter_eq; apply list_alter_ext; reflexivity.
Qed.

Lemma vanilla_later_event_decides_witness :
  Vanilla.dispatch (Vanilla.dispatch Vanilla.root (mouseenter 3))
                   (mouseleave 3)
  = Vanilla.dispatch Vanilla.root (mouseleave 3).
Proof.
  apply vanilla_later_event_decides. reflexivity.
Defined.

(** X12. The listeners of the page without React change colours and
    nothing else: after every sequence of events the page has its 500
    elements, each with the margin and the text the loop gave it. *)
Theorem vanilla_listeners_change_colours_only (es : list Event) :
  length (Vanilla.run Vanilla.root es) = item_count
  ∧ ∀ (i : nat) (e : Vanilla.HTMLDivElement),
      Vanilla.run Vanilla.root es !! i = Some e →
      Vanilla.marginBottom e = "8px" ∧ Vanilla.innerText e = "div".
Proof.
  split.
  - rewrite Vanilla_length_run. apply length_replicate.
  - assert (∀ dom : list Vanilla.HTMLDivElement,
              (∀ i e, dom !! i = Some e →
                      Vanilla.marginBottom e = "8px"
                      ∧ Vanilla.innerText e = "div") →
              ∀ i e, Vanilla.run dom es !! i = Some e →
                     Vanilla.marginBottom e = "8px"
                     ∧ Vanilla.innerText e = "div") as Hfields.
    { induction es as [|ev es IH]; intros dom Hdom; [exact Hdom|].
      unfold Vanilla.run in *. cbn [foldl]. apply IH.
      intros j x. destruct ev as [k|k]; cbn;
        (destruct (decide (k = j)) as [<-|Hne];
         [ rewrite list_lookup_alter_eq;
           destruct (dom !! k) as [y|] eqn:Hy; [|discriminate];
           intros [= <-]; exact (Hdom k y Hy)
         | rewrite list_lookup_alter_ne by exact Hne; apply Hdom ]). }
    apply Hfields.
    intros j x Hx. apply lookup_replicate in Hx as [-> _]. auto.
Qed.

Lemma Vanilla_highlighted_run (es : list Event) :
  ∀ (dom : list Vanilla.HTMLDivElement) (i : nat),
    i < length dom →
    Vanilla.highlighted (Vanilla.run dom es) i
    = tinted_after i (Vanilla.highlighted dom i) es.
Proof.
  induction es as [|e es IH]; intros dom i Hi; [reflexivity|].
  unfold Vanilla.run in *. cbn [foldl].
  rewrite IH by (rewrite Vanilla_length_dispatch; exact Hi).
  rewrite Vanilla_highlighted_dispatch by exact Hi.
  destruct e; reflexivity.
Qed.

(** X13. On the page without React whether an element is tinted depends
    on its own events alone: after any sequence of events element [i] is
    tinted exactly when the last event of element [i] in the sequence is
    an enter, whatever happened to the other elements in between. *)
Theorem vanilla_tint_follows_own_events (es : list Event) (i : nat) :
  i < item_count →
  Vanilla.highlighted (Vanilla.run Vanilla.root es) i
  = tinted_after i false es.
Proof.
  intros Hi. rewrite Vanilla_highlighted_run.
  - f_equal. unfold Vanilla.highlighted, Vanilla.root.
    rewrite lookup_replicate_2 by exact Hi. reflexivity.
  - unfold Vanilla.root. rewrite length_replicate. exact Hi.
Qed.

Lemma vanilla_tint_follows_own_events_witness :
  Vanilla.highlighted
    (Vanilla.run Vanilla.root [mouseenter 3; mouseenter 7; mouseleave 7]) 3
  = tinted_after 3 false [mouseenter 3; mouseenter 7; mouseleave 7].
Proof.
  apply vanilla_tint_follows_own_events. unfold item_count. lia.
Defined.

Lemma Vanilla_leave_after_enter (dom : list Vanilla.HTMLDivElement)
    (i : nat) :
  Vanilla.onLeave i (Vanilla.onEnter i dom) = Vanilla.onLeave i dom.
Proof.
  unfold Vanilla.onLeave, Vanilla.onEnter. cbn.
  rewrite list_alter_alter_eq. reflexivity.
Qed.

Lemma Vanilla_enter_after_leave (dom : list Vanilla.HTMLDivElement)
    (i : nat) :
  Vanilla.onEnter i (Vanilla.onLeave i dom) = Vanilla.onEnter i dom.
Proof.
  unfold Vanilla.onLeave, Vanilla.onEnter. cbn.
  rewrite list_alter_alter_eq. reflexivity.
Qed.

Lemma Vanilla_enter_tinted (dom : list Vanilla.HTMLDivElement) (i : nat) :
  Vanilla.highlighted dom i = true → Vanilla.onEnter i dom = dom.
Proof.
  intros Hi. unfold Vanilla.onEnter. cbn.
  unfold Vanilla.highlighted in Hi.
  destruct (dom !! i) as [e|] eqn:He; [|discriminate].
  apply (alter_fixed _ _ _ e He).
  apply String.eqb_eq in Hi. rewrite <- Hi at 1.
  apply set_backgroundColor_same.
Qed.

(** X14. On the page without React entering and leaving undo each other:
    at every page the events can produce, entering an element that is not
    tinted and leaving it gives the page back, and so does leaving a
    tinted element and entering it again. *)
Theorem vanilla_enter_and_leave_undo_each_other (es : list Event) (i : nat) :
  (Vanilla.highlighted (Vanilla.run Vanilla.root es) i = false →
   Vanilla.onLeave i (Vanilla.onEnter i (Vanilla.run Vanilla.root es))
   = Vanilla.run Vanilla.root es)
  ∧ (Vanilla.highlighted (Vanilla.run Vanilla.root es) i = true →
     Vanilla.onEnter i (Vanilla.onLeave i (Vanilla.run Vanilla.root es))
     = Vanilla.run Vanilla.root es).
Proof.
  split; intros Hi.
  - rewrite Vanilla_leave_after_enter.
    apply Vanilla_leave_untinted; [|exact Hi].
    apply Vanilla_two_colours_run, Vanilla_two_colours_root.
  - rewrite Vanilla_enter_after_leave.
    apply Vanilla_enter_tinted, Hi.
Qed.

Lemma vanilla_enter_and_leave_undo_each_other_witness :
  Vanilla.onLeave 3 (Vanilla.onEnter 3 (Vanilla.run Vanilla.root [mouseenter 7]))
  = Vanilla.run Vanilla.root [mouseenter 7]
  ∧ Vanilla.onEnter 7
      (Vanilla.onLeave 7 (Vanilla.run Vanilla.root [mouseenter 7]))
    = Vanilla.run Vanilla.root [mouseenter 7].
Proof.
  pose proof (vanilla_enter_and_leave_undo_each_other [mouseenter 7])
    as Hundo.
  split.
  - apply (proj1 (Hundo 3)). reflexivity.
  - apply (proj2 (Hundo 7)). reflexivity.
Defined.

(** ** One pointer, two designs *)

Lemma Vanilla_tracks_over_after (es : list Event) :
  ∀ (over : option nat) (dom : list Vanilla.HTMLDivElement),
    Vanilla.tracks over dom → one_at_a_time over es = true →
    Vanilla.tracks (over_after over es) (Vanilla.run dom es).
Proof.
  induction es as [|e es IH]; intros over dom Hdom Hes; [exact Hdom|].
  unfold Vanilla.run in *. cbn [foldl over_after].
  destruct e as [i|i], over as [j|]; cbn [one_at_a_time] in Hes;
    try discriminate.
  - apply andb_true_iff in Hes as [Hi Hes]. apply Nat.ltb_lt in Hi.
    apply IH; [apply Vanilla_tracks_enter; assumption | exact Hes].
  - apply andb_true_iff in Hes as [Hj Hes]. apply Nat.eqb_eq in Hj as <-.
    apply IH; [apply Vanilla_tracks_leave, Hdom | exact Hes].
Qed.

Lemma Extracted_tracks_over_after (es : list Event) :
  ∀ (over : option nat) (s : string),
    (∀ j, over = Some j → j < item_count) →
    s = from_option ToString "" over →
    one_at_a_time over es = true →
    React.run Extracted.App s es
    = from_option ToString "" (over_after over es)
    ∧ ∀ j, over_after over es = Some j → j < item_count.
Proof.
  induction es as [|e es IH]; intros over s Hok Hs Hes; [auto|].
  unfold React.run in *. cbn [foldl over_after].
  destruct e as [i|i], over as [j|]; cbn [one_at_a_time] in Hes;
    try discriminate.
  - apply andb_true_iff in Hes as [Hi Hes]. apply Nat.ltb_lt in Hi.
    apply IH; [|apply Extracted_after_enter, Hi | exact Hes].
    intros k [= <-]. exact Hi.
  - apply andb_true_iff in Hes as [Hj Hes]. apply Nat.eqb_eq in Hj as <-.
    apply IH; [discriminate| |exact Hes].
    rewrite Extracted_after_leave by (apply Hok; reflexivity).
    cbn in Hs. case_decide; [reflexivity | contradiction].
Qed.

(** X15. With a pointer that leaves an element before it enters the next,
    the page without React and the React versions of the source files show
    the same thing: after every such sequence of events each of the 500
    elements is tinted on the one exactly when it is tinted in the
    other. *)
Theorem vanilla_and_react_agree_for_one_pointer (es : list Event) (i : nat) :
  one_at_a_time None es = true →
  Vanilla.highlighted (Vanilla.run Vanilla.root es) i
  = Extracted.highlighted (React.run Extracted.App React.initial es) i
  ∧ Vanilla.highlighted (Vanilla.run Vanilla.root es) i
    = Inline.highlighted (React.run Inline.App React.initial es) i
  ∧ Vanilla.highlighted (Vanilla.run Vanilla.root es) i
    = Memoized.highlighted (Memoized.run Memoized.mount es) i.
Proof.
  intros Hes.
  assert (Vanilla.highlighted (Vanilla.run Vanilla.root es) i
          = Extracted.highlighted
              (React.run Extracted.App React.initial es) i) as HE.
  { destruct (Vanilla_tracks_over_after es None Vanilla.root
                Vanilla_tracks_root Hes) as [_ Hv].
    destruct (Extracted_tracks_over_after es None React.initial)
      as [Hs Hok]; [discriminate | reflexivity | exact Hes |].
    apply eq_true_iff_eq. rewrite Hv, Extracted_highlighted, Hs.
    destruct (over_after None es) as [j|]; cbn.
    - split.
      + intros [= <-]. split; [apply Hok; reflexivity | reflexivity].
      + intros [_ H]. apply ToString_inj in H. congruence.
    - split; [discriminate|]. intros [_ H]. symmetry in H.
      destruct (ToString_nonempty i H). }
  split; [exact HE|]. split.
  - rewrite HE, (Inline_run_as_Extracted React.initial es).
    apply eq_true_iff_eq.
    rewrite Extracted_highlighted, Inline_highlighted. reflexivity.
  - rewrite HE. apply eq_true_iff_eq.
    pose proof (Memoized_run_up_to_date _ es Memoized_mount_up_to_date) as Hr.
    rewrite Extracted_highlighted, (Memoized_highlighted _ i Hr).
    rewrite (Memoized_run_as_Extracted _ es Memoized_mount_up_to_date).
    reflexivity.
Qed.

Lemma vanilla_and_react_agree_for_one_pointer_witness :
  Vanilla.highlighted
    (Vanilla.run Vanilla.root [mouseenter 3; mouseleave 3; mouseenter 7]) 7
  = Extracted.highlighted
      (React.run Extracted.App React.initial
                 [mouseenter 3; mouseleave 3; mouseenter 7]) 7.
Proof.
  apply vanilla_and_react_agree_for_one_pointer. reflexivity.
Defined.

Lemma React_tint_is_Vanilla_tint_step (s : string)
    (dom : list Vanilla.HTMLDivElement) (e : Event) :
  length dom = item_count →
  (∀ i, i < item_count → s = ToString i →
        Vanilla.highlighted dom i = true) →
  ∀ i, i < item_count →
       React.dispatch Extracted.App s e = ToString i →
       Vanilla.highlighted (Vanilla.dispatch dom e) i = true.
Proof.
  intros Hlen Hinv i Hi Hs.
  rewrite Vanilla_highlighted_dispatch by lia.
  destruct e as [j|j]; destruct (decide (j = i)) as [->|Hj].
  - reflexivity.
  - rewrite Extracted_dispatch_enter in Hs. apply Hinv; [exact Hi|].
    case_decide; [|exact Hs].
    rewrite Extracted_onEnter in Hs. apply ToString_inj in Hs. congruence.
  - exfalso. rewrite Extracted_after_leave in Hs by exact Hi.
    case_decide as Heq; [|congruence].
    symmetry in Hs. exact (ToString_nonempty i Hs).
  - rewrite Extracted_dispatch_leave, Extracted_onLeave in Hs.
    apply Hinv; [exact Hi|].
    repeat case_decide; try exact Hs.
    symmetry in Hs. destruct (ToString_nonempty i Hs).
Qed.

Lemma React_tint_is_Vanilla_tint_run (es : list Event) :
  ∀ (s : string) (dom : list Vanilla.HTMLDivElement),
    length dom = item_count →
    (∀ i, i < item_count → s = ToString i →
          Vanilla.highlighted dom i = true) →
    ∀ i, i < item_count →
         React.run Extracted.App s es = ToString i →
         Vanilla.highlighted (Vanilla.run dom es) i = true.
Proof.
  induction es as [|e es IH]; intros s dom Hlen Hinv; [exact Hinv|].
  unfold React.run, Vanilla.run in *. cbn [foldl].
  apply IH.
  - rewrite Vanilla_length_dispatch. exact Hlen.
  - apply React_tint_is_Vanilla_tint_step; assumption.
Qed.

(** X16. Under every sequence of events, also those in which an enter
    comes before the leave of the element entered before, the element a
    React version of the source files tints is tinted on the page without
    React too: the page without React can tint more elements, never
    fewer. *)
Theorem react_tint_is_tinted_without_react (es : list Event) (i : nat) :
  Extracted.highlighted (React.run Extracted.App React.initial es) i = true →
  Vanilla.highlighted (Vanilla.run Vanilla.root es) i = true.
Proof.
  intros Hi. apply Extracted_highlighted in Hi as [Hi Hs].
  apply (React_tint_is_Vanilla_tint_run es React.initial Vanilla.root);
    try assumption.
  - unfold Vanilla.root. apply length_replicate.
  - intros j _ H. symmetry in H. destruct (ToString_nonempty j H).
Qed.

Lemma react_tint_is_tinted_without_react_witness :
  Vanilla.highlighted
    (Vanilla.run Vanilla.root [mouseenter 3; mouseenter 7; mouseleave 3]) 7
  = true.
Proof.
  apply react_tint_is_tinted_without_react. reflexivity.
Defined.
